(** * Creator discovery pipeline (main.py): model and verification

    A shallow embedding of [main.py]: keyword generation, candidate
    collection with de-duplication, activity measurement, threshold
    filtering, the persistence of the result set, and the optional
    orchestration path.

    The external clients (text generation, recent-post search, user
    timeline, the clock, the orchestration library) are an interface
    [Clients]; every function of the program is a computation in a small
    state-and-exception monad over a world made of the clients' state, the
    file system and the standard output. *)

From Stdlib Require Import ZArith QArith Qround Ascii String List Lia.
From stdpp Require Import gmap strings list fin_maps pretty.
Import ListNotations.

Set Warnings "-register-all".

Local Open Scope string_scope.
Local Open Scope Z_scope.

(** ** Python values and exceptions *)

(** The values [json.loads] can return.  A finite float is carried by its
    exact rational value. *)
Inductive pyval : Type :=
  | PNone
  | PBool (b : bool)
  | PInt (z : Z)
  | PFloat (q : Q)
  | PStr (s : string)
  | PList (l : list pyval)
  | PDict (d : list (string * pyval)).

(** An exception instance: its class name and the text [str(e)] gives.
    All the exceptions of this model derive from [Exception]. *)
Inductive exn : Type :=
  | Exception (cls msg : string).

Definition str_exn (e : exn) : string :=
  match e with Exception _ msg => msg end.

Definition TypeError (msg : string) : exn := Exception "TypeError" msg.
Definition AttributeError (msg : string) : exn := Exception "AttributeError" msg.
Definition IndexError (msg : string) : exn := Exception "IndexError" msg.

(** The outcome of a call: a value, or a raised exception. *)
Inductive result (A : Type) : Type :=
  | Ok (a : A)
  | Raise (e : exn).
Arguments Ok {A} a.
Arguments Raise {A} e.

Definition is_ok {A} (r : result A) : bool :=
  match r with Ok _ => true | Raise _ => false end.

(** The values among a list of outcomes, in order. *)
Fixpoint successes {A} (rs : list (result A)) : list A :=
  match rs with
  | [] => []
  | Ok a :: rs' => a :: successes rs'
  | Raise _ :: rs' => successes rs'
  end.

(** [str(n)] for an integer. *)
Definition str_int (z : Z) : string := pretty z.

(** A Python string is a sequence of code points; the string of a [PStr]
    holds their UTF-8 bytes.  A byte [10xxxxxx] continues the code point
    of the byte before it. *)
Definition is_continuation (c : ascii) : bool :=
  let n := nat_of_ascii c in (128 <=? n)%nat && (n <? 192)%nat.

(** The code points of a string, each as the string of its bytes. *)
Fixpoint code_points (s : string) : list string :=
  match s with
  | EmptyString => []
  | String c rest =>
      let ps := code_points rest in
      match rest with
      | String c' _ =>
          if is_continuation c' then
            match ps with
            | p :: ps' => String c p :: ps'
            | [] => [String c EmptyString]
            end
          else String c EmptyString :: ps
      | EmptyString => [String c EmptyString]
      end
  end.

(** [for x in v]: the items a value yields, or [TypeError] when the value
    is not iterable.  A string yields its characters, a dict its keys. *)
Definition chars (s : string) : list pyval := map PStr (code_points s).

Definition py_iter (v : pyval) : result (list pyval) :=
  match v with
  | PList l => Ok l
  | PStr s => Ok (chars s)
  | PDict d => Ok (map (fun kv => PStr (fst kv)) d)
  | PNone => Raise (TypeError "'NoneType' object is not iterable")
  | PBool _ => Raise (TypeError "'bool' object is not iterable")
  | PInt _ => Raise (TypeError "'int' object is not iterable")
  | PFloat _ => Raise (TypeError "'float' object is not iterable")
  end.

(** [len(v)]. *)
Definition py_len (v : pyval) : result Z :=
  match v with
  | PList l => Ok (Z.of_nat (length l))
  | PStr s => Ok (Z.of_nat (length (code_points s)))
  | PDict d => Ok (Z.of_nat (length d))
  | PNone => Raise (TypeError "object of type 'NoneType' has no len()")
  | PBool _ => Raise (TypeError "object of type 'bool' has no len()")
  | PInt _ => Raise (TypeError "object of type 'int' has no len()")
  | PFloat _ => Raise (TypeError "object of type 'float' has no len()")
  end.

(** [round(x, ndigits)] on the exact value of a float: the nearest multiple
    of [10^-ndigits], ties to the even one. *)
Definition round_half_even (q : Q) : Z :=
  let f := Qfloor q in
  let r := (q - inject_Z f)%Q in
  match (r ?= 1 # 2)%Q with
  | Lt => f
  | Gt => f + 1
  | Eq => if Z.even f then f else f + 1
  end.

Definition py_round (q : Q) (ndigits : nat) : Q :=
  let scale := Z.pow 10 (Z.of_nat ndigits) in
  Qred (inject_Z (round_half_even (q * inject_Z scale)) / inject_Z scale)%Q.

(** [a / b] on integers: true division, a float.  The quotient is carried
    exactly; for a count and 2 the float is exact as well, a count being
    far below 2^53. *)
Definition py_truediv (a b : Z) : Q := (inject_Z a / inject_Z b)%Q.

(** ** The insertion-ordered dictionary

    A Python [dict] keeps its keys in the order of their first insertion;
    assigning to a key that is present replaces the value where it
    stands. *)
Module PyDict.
Section Dict.
Context {V : Type}.

Definition t : Type := list (string * V).

Definition empty : t := [].

Definition keys (d : t) : list string := map fst d.

Definition items (d : t) : list (string * V) := d.

Fixpoint get (k : string) (d : t) : option V :=
  match d with
  | [] => None
  | (k', v) :: d' => if String.eqb k k' then Some v else get k d'
  end.

(** [d[k] = v] *)
Fixpoint set (k : string) (v : V) (d : t) : t :=
  match d with
  | [] => [(k, v)]
  | (k', v') :: d' =>
      if String.eqb k k' then (k, v) :: d' else (k', v') :: set k v d'
  end.

(** A run of assignments, first to last. *)
Definition set_all (kvs : list (string * V)) (d : t) : t :=
  fold_left (fun acc kv => set (fst kv) (snd kv) acc) kvs d.

(** The value of the last assignment to [k] in a run of assignments. *)
Fixpoint last_assigned (k : string) (kvs : list (string * V)) : option V :=
  match kvs with
  | [] => None
  | (k', v) :: kvs' =>
      match last_assigned k kvs' with
      | Some v' => Some v'
      | None => if String.eqb k k' then Some v else None
      end
  end.

End Dict.
Arguments t : clear implicits.
End PyDict.

(** ** The world and the monad of the program *)

(** One result entry of the output document. *)
Record ResultEntry : Type := mkResultEntry {
  profile_url : string;
  username : string;
  followers : Z;
  tweets_last_2_weeks : Z;
  avg_posts_per_week : Q
}.

(** What [result_data] can be: the list the pipeline builds, or a value
    taken from the orchestration output, or that output object itself
    (which [json.dump] cannot serialise). *)
Inductive payload : Type :=
  | Entries (rs : list ResultEntry)
  | Value (v : pyval)
  | OutputObject.

(** The content of a file after [open(name, "w")] and [json.dump]. *)
Inductive file_content : Type :=
  | JsonDocument (topic : string) (results : payload)
  | Partial.

Record world (Σ : Type) : Type := World {
  ext : Σ;
  files : gmap string file_content;
  stdout : list string
}.
Arguments World {Σ} ext files stdout.
Arguments ext {Σ} w.
Arguments files {Σ} w.
Arguments stdout {Σ} w.

Definition set_ext {Σ} (σ : Σ) (w : world Σ) : world Σ :=
  World σ (files w) (stdout w).

Definition M (Σ A : Type) : Type := world Σ → result A * world Σ.

Definition ret {Σ A} (a : A) : M Σ A := fun w => (Ok a, w).

Definition raise {Σ A} (e : exn) : M Σ A := fun w => (Raise e, w).

Definition bind {Σ A B} (m : M Σ A) (k : A → M Σ B) : M Σ B :=
  fun w =>
    match m w with
    | (Ok a, w') => k a w'
    | (Raise e, w') => (Raise e, w')
    end.

(** [try: m  except Exception as e: handler e] *)
Definition try_except {Σ A} (m : M Σ A) (handler : exn → M Σ A) : M Σ A :=
  fun w =>
    match m w with
    | (Ok a, w') => (Ok a, w')
    | (Raise e, w') => handler e w'
    end.

(** A call to an external client: it sees and changes the clients' state
    only. *)
Definition call {Σ A} (f : Σ → result A * Σ) : M Σ A :=
  fun w => let (r, σ) := f (ext w) in (r, set_ext σ w).

(** A pure computation that may raise. *)
Definition lift_result {Σ A} (r : result A) : M Σ A := fun w => (r, w).

Definition print {Σ} (line : string) : M Σ unit :=
  fun w => (Ok tt, World (ext w) (files w) (stdout w ++ [line])).

Definition write_file {Σ} (name : string) (c : file_content) : M Σ unit :=
  fun w => (Ok tt, World (ext w) (<[name := c]> (files w)) (stdout w)).

Declare Scope py_scope.
Delimit Scope py_scope with py.
Notation "x <- m ;; k" := (bind m (fun x => k))
  (at level 100, m at next level, right associativity) : py_scope.
Notation "m ;;; k" := (bind m (fun _ => k))
  (at level 100, right associativity) : py_scope.

Local Open Scope py_scope.

(** ** What the external clients exchange with the program *)

(** The chat completion of the text-generation client, as far as
    [resp.choices[0].message.content] reads it. *)
Record ChatMessage : Type := { content : option string }.
Record Choice : Type := { message : ChatMessage }.
Record ChatCompletion : Type := { choices : list Choice }.

Record Tweet : Type := { tweet_id : Z; text : string }.

(** An included user object: [u.id], [u.username], and [u.public_metrics],
    the dict of counters the request asks for with [user_fields], or [None]
    when the platform sent none for this user. *)
Record User : Type := {
  user_id : Z;
  user_username : string;
  public_metrics : option (gmap string Z)
}.

(** The response of the recent-post search: the posts and the side list of
    expansions, keyed by kind. *)
Record SearchResponse : Type := {
  search_data : option (list Tweet);
  includes : option (gmap string (list User))
}.

(** The response of the user timeline. *)
Record TimelineResponse : Type := { data : option (list Tweet) }.

(** The output object of the orchestration run, by the attributes
    [run_crewai] probes with [hasattr]: [raw], the method [to_dict], and
    [json]. *)
Record CrewOutput : Type := {
  raw : option pyval;
  to_dict : option (result pyval);
  json : option pyval
}.

Record AgentArgs : Type := {
  role : string;
  goal : string;
  backstory : string;
  llm : string;
  agent_verbose : bool
}.

Record TaskArgs (Σ AgentObj : Type) : Type := {
  description : string;
  agent : AgentObj;
  expected_output : string;
  func : pyval → M Σ (list ResultEntry)
}.
Arguments description {Σ AgentObj} _.
Arguments agent {Σ AgentObj} _.
Arguments expected_output {Σ AgentObj} _.
Arguments func {Σ AgentObj} _.

Record CrewArgs (AgentObj TaskObj : Type) : Type := {
  agents : list AgentObj;
  tasks : list TaskObj;
  crew_verbose : bool
}.
Arguments agents {AgentObj TaskObj} _.
Arguments tasks {AgentObj TaskObj} _.
Arguments crew_verbose {AgentObj TaskObj} _.

(** ** The external clients

    [Σ] is the state of the outside world the clients talk to.  A client
    call takes that state and gives an outcome and the next state; the
    orchestration run may also print and touch files, and runs the task
    function it was given, so it acts on the whole world. *)
Class Clients (Σ : Type) : Type := {
  (** [os.getenv], read when the module is loaded *)
  getenv : string → option string;
  (** whether [from crewai import Agent, Task, Crew] succeeded *)
  CREWAI_AVAILABLE : bool;
  (** [client_oa.chat.completions.create(model=, messages=)] *)
  chat_completions_create :
    string → list (string * string) → Σ → result ChatCompletion * Σ;
  (** [json.loads] on a string, and [repr] on floats and containers *)
  json_loads : string → result pyval;
  repr : pyval → string;
  (** [datetime.now(UTC)] in microseconds, and [.isoformat()] *)
  datetime_now : Σ → Z * Σ;
  isoformat : Z → string;
  (** [client_tw.search_recent_tweets(query=, max_results=, start_time=,
      expansions=, user_fields=)] *)
  search_recent_tweets :
    string → Z → string → list string → list string →
    Σ → result SearchResponse * Σ;
  (** [client_tw.get_users_tweets(id=, start_time=, max_results=)]; [None]
      stands for a response that is falsy *)
  get_users_tweets :
    string → string → Z → Σ → result (option TimelineResponse) * Σ;
  (** the classes of the orchestration library and [crew.kickoff()] *)
  AgentObj : Type;
  TaskObj : Type;
  CrewObj : Type;
  Agent : AgentArgs → Σ → result AgentObj * Σ;
  Task : TaskArgs Σ AgentObj → Σ → result TaskObj * Σ;
  Crew : CrewArgs AgentObj TaskObj → Σ → result CrewObj * Σ;
  kickoff : CrewObj → world Σ → result CrewOutput * world Σ
}.

(** The clients [C] with a log, beside their state, of the author ids the
    timeline client is asked for, in the order of the requests.  The
    orchestration library is not installed for them. *)
Definition not_installed : exn := Exception "NameError" "name 'Agent' is not defined".

Definition logged {Σ : Type} (C : Clients Σ) : Clients (Σ * list string) :=
  {| getenv := getenv;
     CREWAI_AVAILABLE := false;
     chat_completions_create := fun model messages s =>
       let (r, σ) := chat_completions_create model messages (fst s) in (r, (σ, snd s));
     json_loads := json_loads;
     repr := repr;
     datetime_now := fun s =>
       let (t, σ) := datetime_now (fst s) in (t, (σ, snd s));
     isoformat := isoformat;
     search_recent_tweets := fun q n start expansions fields s =>
       let (r, σ) := search_recent_tweets q n start expansions fields (fst s) in
       (r, (σ, snd s));
     get_users_tweets := fun uid start n s =>
       let (r, σ) := get_users_tweets uid start n (fst s) in
       (r, (σ, (snd s ++ [uid])%list));
     AgentObj := unit;
     TaskObj := unit;
     CrewObj := unit;
     Agent := fun _ s => (Raise not_installed, s);
     Task := fun _ s => (Raise not_installed, s);
     Crew := fun _ s => (Raise not_installed, s);
     kickoff := fun _ w => (Raise not_installed, w) |}.

(** ** The program *)
Section Program.
Context {Σ : Type} {C : Clients Σ}.

Definition OPENAI_MODEL : string := default "gpt-4o-mini" (getenv "OPENAI_MODEL").
Definition MIN_FOLLOWERS : Z := 5000.
Definition MIN_TWEETS_2W : Z := 6.

(** [f"{v}"] *)
Definition str_value (v : pyval) : string :=
  match v with
  | PStr s => s
  | PInt z => str_int z
  | PNone => "None"
  | PBool true => "True"
  | PBool false => "False"
  | PFloat _ | PList _ | PDict _ => repr v
  end.

(** [json.loads] on the message content; a content of [None] is a
    [TypeError]. *)
Definition loads (c : option string) : result pyval :=
  match c with
  | Some s => json_loads s
  | None =>
      Raise (TypeError "the JSON object must be str, bytes or bytearray, not NoneType")
  end.

(** [resp.choices[0].message.content] *)
Definition first_content (resp : ChatCompletion) : result (option string) :=
  match choices resp with
  | c :: _ => Ok (content (message c))
  | [] => Raise (IndexError "list index out of range")
  end.

Definition FALLBACK_KEYWORDS : pyval :=
  PList [PStr "US stock market"; PStr "Wall Street"; PStr "S&P 500"].

(** The [messages] of the request, as (role, content) pairs. *)
Definition keyword_messages (topic : string) (n : Z) : list (string * string) :=
  [("system", "Return a JSON array of keywords.");
   ("user", "Give " ++ str_int n ++ " short keywords for: " ++ topic)].

Definition generate_keywords (topic : string) (n : Z) : M Σ pyval :=
  resp <- call (chat_completions_create OPENAI_MODEL (keyword_messages topic n)) ;;
  try_except
    (c <- lift_result (first_content resp) ;;
     lift_result (loads c))
    (fun _ => ret FALLBACK_KEYWORDS).

(** The value stored for an author: [{"username": .., "followers": ..}]. *)
Record AuthorInfo : Type := {
  info_username : string;
  info_followers : Z
}.

Definition author_key (u : User) : string := str_int (user_id u).

(** [{"username": u.username,
      "followers": u.public_metrics.get("followers_count", 0)}]; on a
    [public_metrics] of [None] the call of [get] raises. *)
Definition author_info (u : User) : result AuthorInfo :=
  match public_metrics u with
  | Some metrics =>
      Ok {| info_username := user_username u;
            info_followers := default 0 (metrics !! "followers_count") |}
  | None => Raise (AttributeError "'NoneType' object has no attribute 'get'")
  end.

(** [for u in users: authors[str(u.id)] = {...}].  The dict is changed in
    place: when the loop raises, what it stored before stays in [authors].
    The loop gives the dict as it leaves it and how it ended. *)
Fixpoint store_users (us : list User) (authors : PyDict.t AuthorInfo)
  : PyDict.t AuthorInfo * result unit :=
  match us with
  | [] => (authors, Ok tt)
  | u :: rest =>
      match author_info u with
      | Ok info => store_users rest (PyDict.set (author_key u) info authors)
      | Raise e => (authors, Raise e)
      end
  end.

(** The truth value of a dict: it is not empty. *)
Definition truthy {V} (d : gmap string V) : bool := negb (Nat.eqb (size d) 0).

(** [datetime.now(UTC) - timedelta(days=days)], in microseconds. *)
Definition start_of_window (now days : Z) : Z := now - days * 86400000000.

Definition now : M Σ Z :=
  call (fun σ => let (t, σ') := datetime_now σ in (Ok t, σ')).

(** [f'{kw} -is:retweet lang:en'] *)
Definition search_query (kw : pyval) : string :=
  str_value kw ++ " -is:retweet lang:en".

(** The [try] block of [search_authors] for one keyword: the search, and
    the loop over the included users when there are some.  It gives
    [authors] as the block leaves it and how the block ended. *)
Definition search_block (start_time : string) (per_kw : Z)
    (authors : PyDict.t AuthorInfo) (kw : pyval) (w : world Σ)
  : (PyDict.t AuthorInfo * result unit) * world Σ :=
  match call (search_recent_tweets
                (search_query kw)
                (Z.min per_kw 100)
                start_time
                ["author_id"]
                ["username"; "public_metrics"]) w with
  | (Ok resp, w') =>
      match includes resp with
      | Some inc =>
          if truthy inc then
            match inc !! "users" with
            | Some us => (store_users us authors, w')
            | None => ((authors, Ok tt), w')
            end
          else ((authors, Ok tt), w')
      | None => ((authors, Ok tt), w')
      end
  | (Raise e, w') => ((authors, Raise e), w')
  end.

(** The body of the loop of [search_authors] for one keyword: the [try]
    block, and the warning of the [except] when the block raised. *)
Definition search_keyword (start_time : string) (per_kw : Z)
    (authors : PyDict.t AuthorInfo) (kw : pyval) : M Σ (PyDict.t AuthorInfo) :=
  fun w =>
    match search_block start_time per_kw authors kw w with
    | ((authors', Ok _), w') => (Ok authors', w')
    | ((authors', Raise e), w') =>
        (print ("warn: " ++ str_exn e) ;;; ret authors') w'
    end.

Fixpoint search_loop (start_time : string) (per_kw : Z) (kws : list pyval)
    (authors : PyDict.t AuthorInfo) : M Σ (PyDict.t AuthorInfo) :=
  match kws with
  | [] => ret authors
  | kw :: rest =>
      authors' <- search_keyword start_time per_kw authors kw ;;
      search_loop start_time per_kw rest authors'
  end.

Definition search_authors (keywords : pyval) (days per_kw : Z)
  : M Σ (PyDict.t AuthorInfo) :=
  t0 <- now ;;
  let start_time := isoformat (start_of_window t0 days) in
  kws <- lift_result (py_iter keywords) ;;
  search_loop start_time per_kw kws PyDict.empty.

(** [len(resp.data) if resp and resp.data else 0] *)
Definition count_of (resp : option TimelineResponse) : Z :=
  match resp with
  | Some r =>
      match data r with
      | Some [] => 0
      | Some l => Z.of_nat (length l)
      | None => 0
      end
  | None => 0
  end.

Definition count_tweets (uid : string) (days : Z) : M Σ Z :=
  t0 <- now ;;
  let start_time := isoformat (start_of_window t0 days) in
  try_except
    (resp <- call (get_users_tweets uid start_time 100) ;;
     ret (count_of resp))
    (fun _ => ret 0).

(** The dict appended to [results] for a candidate that passes. *)
Definition make_entry (info : AuthorInfo) (t : Z) : ResultEntry :=
  {| profile_url := "https://x.com/" ++ info_username info;
     username := info_username info;
     followers := info_followers info;
     tweets_last_2_weeks := t;
     avg_posts_per_week := py_round (py_truediv t 2) 2 |}.

(** The loop of [run_pipeline] over [authors.items()]. *)
Fixpoint pipeline_loop (items : list (string * AuthorInfo))
    (results : list ResultEntry) : M Σ (list ResultEntry) :=
  match items with
  | [] => ret results
  | (uid, info) :: rest =>
      t <- count_tweets uid 7 ;;
      if (MIN_FOLLOWERS <=? info_followers info) && (MIN_TWEETS_2W <=? t)
      then pipeline_loop rest (results ++ [make_entry info t])
      else pipeline_loop rest results
  end.

Definition json_dump (name topic : string) (results : payload) : M Σ unit :=
  match results with
  | OutputObject =>
      write_file name Partial ;;;
      raise (TypeError "Object of type CrewOutput is not JSON serializable")
  | _ => write_file name (JsonDocument topic results)
  end.

(** What [run_pipeline] prints when it has saved [n] entries. *)
Definition saved_line (n : nat) : string :=
  "saved " ++ str_int (Z.of_nat n) ++ " users to results.json".

Definition run_pipeline (topic : string) : M Σ (list ResultEntry) :=
  kws <- generate_keywords topic 3 ;;
  authors <- search_authors kws 7 10 ;;
  results <- pipeline_loop (PyDict.items authors) [] ;;
  json_dump "results.json" topic (Entries results) ;;;
  print (saved_line (length results)) ;;;
  ret results.

(** The loop of the task function [search_and_filter]. *)
Fixpoint task_loop (items : list (string * AuthorInfo))
    (results : list ResultEntry) : M Σ (list ResultEntry) :=
  match items with
  | [] => ret results
  | (uid, info) :: rest =>
      t <- count_tweets uid 7 ;;
      if (MIN_FOLLOWERS <=? info_followers info) && (MIN_TWEETS_2W <=? t)
      then task_loop rest (results ++ [make_entry info t])
      else task_loop rest results
  end.

(** The closure [search_and_filter] of [run_crewai], with the [topic] it
    captures as a parameter. *)
Definition search_and_filter (topic : string) (ctx : pyval)
  : M Σ (list ResultEntry) :=
  kws <- generate_keywords topic 3 ;;
  authors <- search_authors kws 7 10 ;;
  results <- task_loop (PyDict.items authors) [] ;;
  ret results.

(** [len(result_data)] *)
Definition payload_len (p : payload) : result Z :=
  match p with
  | Entries rs => Ok (Z.of_nat (length rs))
  | Value v => py_len v
  | OutputObject => Raise (TypeError "object of type 'CrewOutput' has no len()")
  end.

(** The choice of [result_data] after [crew.kickoff()]. *)
Definition extract (result : CrewOutput) : M Σ payload :=
  match raw result with
  | Some v => ret (Value v)
  | None =>
      match to_dict result with
      | Some r => v <- lift_result r ;; ret (Value v)
      | None =>
          match json result with
          | Some v => ret (Value v)
          | None => ret OutputObject
          end
      end
  end.

Definition agent_args : AgentArgs :=
  {| role := "Keyword Generator";
     goal := "Generate keywords for searching creators about financial markets";
     backstory := "Expert at picking concise keywords.";
     llm := OPENAI_MODEL;
     agent_verbose := true |}.

Definition task_args (topic : string) (gen_keywords_agent : AgentObj)
  : TaskArgs Σ AgentObj :=
  {| description := "Run search & filter pipeline for " ++ topic;
     agent := gen_keywords_agent;
     expected_output := "Final JSON list of users";
     func := search_and_filter topic |}.

Definition crew_args (gen_keywords_agent : AgentObj) (t1 : TaskObj)
  : CrewArgs AgentObj TaskObj :=
  {| agents := [gen_keywords_agent]; tasks := [t1]; crew_verbose := true |}.

(** What [run_crewai] prints: after a failed orchestration run, and at its
    end. *)
Definition failed_line (e : exn) : string := "CrewAI flow failed: " ++ str_exn e.

Definition finished_line (n : Z) : string :=
  "CrewAI flow finished, saved " ++ str_int n ++ " users to results_crewai.json".

Definition run_crewai (topic : string) : M Σ payload :=
  if negb CREWAI_AVAILABLE then
    results <- run_pipeline topic ;; ret (Entries results)
  else
    gen_keywords_agent <- call (Agent agent_args) ;;
    t1 <- call (Task (task_args topic gen_keywords_agent)) ;;
    crew <- call (Crew (crew_args gen_keywords_agent t1)) ;;
    result_data <-
      try_except
        (result <- kickoff crew ;; extract result)
        (fun e =>
           print (failed_line e) ;;;
           results <- run_pipeline topic ;;
           ret (Entries results)) ;;
    json_dump "results_crewai.json" topic result_data ;;;
    n <- lift_result (payload_len result_data) ;;
    print (finished_line n) ;;;
    ret result_data.

Definition main : M Σ unit :=
  let topic := "US financial markets" in
  if CREWAI_AVAILABLE then run_crewai topic ;;; ret tt
  else run_pipeline topic ;;; ret tt.
End Program.

(** ** Scripted clients

    Clients whose answers are fixed by a script, for running the program
    on concrete scenarios.  The state of the outside world is the number
    of calls made so far, which is also what the clock shows. *)
Module Scripted.

Record Script : Type := {
  chat : result ChatCompletion;
  decode : list (string * pyval);
  search : list (string * result SearchResponse);
  timeline : list (string * result (option TimelineResponse));
  crewai : bool;
  crew_output : result CrewOutput
}.

Definition tick {A} (a : A) (σ : nat) : A * nat := (a, S σ).

(** The decoder of a script knows the documents of its table and rejects
    every other text. *)
Definition decode_with (tbl : list (string * pyval)) (s : string) : result pyval :=
  match PyDict.get s tbl with
  | Some v => Ok v
  | None => Raise (Exception "JSONDecodeError" "Expecting value")
  end.

Definition answer {A} (tbl : list (string * result A)) (k : string) : result A :=
  match PyDict.get k tbl with
  | Some r => r
  | None => Raise (Exception "HTTPException" "no answer")
  end.

Definition clients (s : Script) : Clients nat :=
  {| getenv := fun _ => None;
     CREWAI_AVAILABLE := crewai s;
     chat_completions_create := fun _ _ => tick (chat s);
     json_loads := decode_with (decode s);
     repr := fun _ => "<value>";
     datetime_now := fun σ => (Z.of_nat σ, σ);
     isoformat := str_int;
     search_recent_tweets := fun q _ _ _ _ => tick (answer (search s) q);
     get_users_tweets := fun uid _ _ => tick (answer (timeline s) uid);
     AgentObj := AgentArgs;
     TaskObj := TaskArgs nat AgentArgs;
     CrewObj := CrewArgs AgentArgs (TaskArgs nat AgentArgs);
     Agent := fun a => tick (Ok a);
     Task := fun a => tick (Ok a);
     Crew := fun a => tick (Ok a);
     kickoff := fun _ w => (crew_output s, set_ext (S (ext w)) w) |}.

Definition w0 : world nat := World 0%nat ∅ [].

Definition completion (text : string) : ChatCompletion :=
  {| choices := [ {| message := {| content := Some text |} |} ] |}.

Definition user (i : Z) (name : string) (n : Z) : User :=
  {| user_id := i; user_username := name;
     public_metrics := Some {[ "followers_count" := n ]} |}.

Definition found (us : list User) : result SearchResponse :=
  Ok {| search_data := None; includes := Some {[ "users" := us ]} |}.

Definition posts (n : nat) : result (option TimelineResponse) :=
  Ok (Some {| data := Some (repeat {| tweet_id := 0; text := "" |} n) |}).

Definition network_down : exn := Exception "APIConnectionError" "Connection error.".

(** The scenario of the end-to-end test: three keywords; the first search
    finds A (8000 followers), the second finds B (3000) and A again, the
    third fails; both authors posted ten times. *)
Definition market : Script :=
  {| chat := Ok (completion "[stocks, Fed, earnings]");
     decode := [("[stocks, Fed, earnings]",
                 PList [PStr "stocks"; PStr "Fed"; PStr "earnings"])];
     search := [("stocks -is:retweet lang:en", found [user 1 "A" 8000]);
                ("Fed -is:retweet lang:en", found [user 2 "B" 3000; user 1 "A" 8000])];
     timeline := [("1", posts 10); ("2", posts 10)];
     crewai := false;
     crew_output := Raise network_down |}.

(** The text-generation client is unreachable. *)
Definition chat_down : Script :=
  {| chat := Raise network_down;
     decode := decode market;
     search := search market;
     timeline := timeline market;
     crewai := false;
     crew_output := Raise network_down |}.

(** The model answers with the JSON number 42. *)
Definition chat_number : Script :=
  {| chat := Ok (completion "42");
     decode := [("42", PInt 42)];
     search := search market;
     timeline := timeline market;
     crewai := false;
     crew_output := Raise network_down |}.

(** The model answers with text that is not JSON. *)
Definition chat_prose : Script :=
  {| chat := Ok (completion "Sure! Here are some keywords");
     decode := [];
     search := search market;
     timeline := timeline market;
     crewai := false;
     crew_output := Raise network_down |}.

(** The orchestration library is installed and its run fails. *)
Definition crew_fails : Script :=
  {| chat := chat market;
     decode := decode market;
     search := search market;
     timeline := timeline market;
     crewai := true;
     crew_output := Raise (Exception "RuntimeError" "kickoff failed") |}.

(** One search with five authors around the thresholds: E has exactly 5000
    followers and 6 posts, F has 4999 followers, G has 5 posts, H comes
    without the follower metric, I has 7 posts. *)
Definition thresholds : Script :=
  {| chat := Ok (completion "[markets]");
     decode := [("[markets]", PList [PStr "markets"])];
     search := [("markets -is:retweet lang:en",
                 found [user 5 "E" 5000; user 6 "F" 4999; user 7 "G" 9000;
                        {| user_id := 8; user_username := "H"; public_metrics := Some ∅ |};
                        user 9 "I" 7000])];
     timeline := [("5", posts 6); ("6", posts 50); ("7", posts 5); ("8", posts 30);
                  ("9", posts 7)];
     crewai := false;
     crew_output := Raise network_down |}.

(** The orchestration library is installed and its run answers with an
    output whose [raw] is a text; its [to_dict] would raise. *)
Definition crew_answers : Script :=
  {| chat := chat market;
     decode := decode market;
     search := search market;
     timeline := timeline market;
     crewai := true;
     crew_output :=
       Ok {| raw := Some (PStr "A");
             to_dict := Some (Raise (Exception "ValueError" "no dict"));
             json := Some PNone |} |}.

(** The search answers without any expansion. *)
Definition no_expansion : Script :=
  {| chat := Ok (completion "[markets]");
     decode := [("[markets]", PList [PStr "markets"])];
     search := [("markets -is:retweet lang:en",
                 Ok {| search_data := Some []; includes := None |})];
     timeline := [];
     crewai := false;
     crew_output := Raise network_down |}.

Definition invalid : exn := Exception "ValidationError" "invalid arguments".

(** The clients of a script, with an orchestration library whose
    constructor number [stage] (0 for [Agent], 1 for [Task], 2 for [Crew])
    rejects its arguments. *)
Definition clients_rejecting (stage : nat) (s : Script) : Clients nat :=
  {| getenv := fun _ => None;
     CREWAI_AVAILABLE := true;
     chat_completions_create := fun _ _ => tick (chat s);
     json_loads := decode_with (decode s);
     repr := fun _ => "<value>";
     datetime_now := fun σ => (Z.of_nat σ, σ);
     isoformat := str_int;
     search_recent_tweets := fun q _ _ _ _ => tick (answer (search s) q);
     get_users_tweets := fun uid _ _ => tick (answer (timeline s) uid);
     AgentObj := AgentArgs;
     TaskObj := TaskArgs nat AgentArgs;
     CrewObj := CrewArgs AgentArgs (TaskArgs nat AgentArgs);
     Agent := fun a => tick (if Nat.eqb stage 0 then Raise invalid else Ok a);
     Task := fun a => tick (if Nat.eqb stage 1 then Raise invalid else Ok a);
     Crew := fun a => tick (if Nat.eqb stage 2 then Raise invalid else Ok a);
     kickoff := fun _ w => (crew_output s, set_ext (S (ext w)) w) |}.

(** A user object that came without [public_metrics]. *)
Definition bare_user (i : Z) (name : string) : User :=
  {| user_id := i; user_username := name; public_metrics := None |}.

(** The first search finds A with 8000 followers; the second answers with
    B, who came without metrics, and then A with 9000 followers; the third
    has no answer. *)
Definition stale : Script :=
  {| chat := Ok (completion "[stocks, Fed]");
     decode := [("[stocks, Fed]", PList [PStr "stocks"; PStr "Fed"])];
     search := [("stocks -is:retweet lang:en", found [user 1 "A" 8000]);
                ("Fed -is:retweet lang:en", found [bare_user 2 "B"; user 1 "A" 9000])];
     timeline := [("1", posts 10)];
     crewai := false;
     crew_output := Raise network_down |}.


Definition topic : string := "US financial markets".

Definition entry (name : string) (n t : Z) (avg : Q) : ResultEntry :=
  {| profile_url := "https://x.com/" ++ name; username := name; followers := n;
     tweets_last_2_weeks := t; avg_posts_per_week := avg |}.

End Scripted.

(** ** What a run observes

    The answers the clients give during a loop, in the order of the calls.
    They are read off the clients with the arguments the program passes,
    and the theorems below relate them to what the program returns. *)
Section Observations.
Context {Σ : Type} {C : Clients Σ}.

(** The outcomes of the searches of [search_authors], one per keyword, and
    the state of the outside world after the last one. *)
Fixpoint search_outcomes (start_time : string) (per_kw : Z) (kws : list pyval)
    (σ : Σ) : list (result SearchResponse) * Σ :=
  match kws with
  | [] => ([], σ)
  | kw :: rest =>
      let (r, σ1) :=
        search_recent_tweets (search_query kw) (Z.min per_kw 100) start_time
          ["author_id"] ["username"; "public_metrics"] σ in
      let (rs, σ2) := search_outcomes start_time per_kw rest σ1 in
      (r :: rs, σ2)
  end.

(** The user objects a response includes. *)
Definition included_users (resp : SearchResponse) : list User :=
  match includes resp with
  | Some inc => default [] (inc !! "users")
  | None => []
  end.

(** Whether a user object comes with its [public_metrics]. *)
Definition has_metrics (u : User) : bool :=
  match public_metrics u with Some _ => true | None => false end.

(** The users of a list that the loop over it stores: those before the
    first one without [public_metrics]. *)
Fixpoint reached (us : list User) : list User :=
  match us with
  | [] => []
  | u :: rest => if has_metrics u then u :: reached rest else []
  end.

(** What one keyword contributes to the map: the included users its loop
    stores when its search answered, nothing when its search raised. *)
Definition contribution (out : result SearchResponse) : list User :=
  match out with
  | Ok resp => reached (included_users resp)
  | Raise _ => []
  end.

(** The users a run of searches stores, keyword after keyword. *)
Definition stored (outs : list (result SearchResponse)) : list User :=
  concat (map contribution outs).

(** The identifier and the metadata read off a stored user object. *)
Definition assignment (u : User) : string * AuthorInfo :=
  (str_int (user_id u),
   {| info_username := user_username u;
      info_followers :=
        default 0 (public_metrics u ≫= fun metrics => metrics !! "followers_count") |}).


(** The last user of a list with a given identifier. *)
Fixpoint last_with_id (uid : string) (us : list User) : option User :=
  match us with
  | [] => None
  | u :: rest =>
      match last_with_id uid rest with
      | Some u' => Some u'
      | None => if String.eqb uid (str_int (user_id u)) then Some u else None
      end
  end.

(** The warning line of one keyword, if any: the message of the search
    that raised, or that of the loop that met a user object without
    [public_metrics]. *)
Definition keyword_warning (out : result SearchResponse) : list string :=
  match out with
  | Raise e => ["warn: " ++ str_exn e]
  | Ok resp =>
      if forallb has_metrics (included_users resp) then []
      else ["warn: 'NoneType' object has no attribute 'get'"]
  end.

Definition keyword_warnings (outs : list (result SearchResponse)) : list string :=
  concat (map keyword_warning outs).

(** The measured activity: each candidate of [items] with the count
    [count_tweets] returns for it, and the world after the last
    measurement. *)
Fixpoint measurements (items : list (string * AuthorInfo)) (w : world Σ)
    : list (string * AuthorInfo * Z) * world Σ :=
  match items with
  | [] => ([], w)
  | (uid, info) :: rest =>
      match count_tweets uid 7 w with
      | (Ok t, w1) =>
          let (ms, w2) := measurements rest w1 in ((uid, info, t) :: ms, w2)
      | (Raise _, w1) => ([], w1)
      end
  end.

(** The threshold test of the pipeline on a measured candidate. *)
Definition qualifies (m : string * AuthorInfo * Z) : bool :=
  let '(_, info, t) := m in
  (MIN_FOLLOWERS <=? info_followers info) && (MIN_TWEETS_2W <=? t).

Definition entry_of (m : string * AuthorInfo * Z) : ResultEntry :=
  let '(_, info, t) := m in make_entry info t.

(** The outcomes of keyword generation the fallback is documented for:
    an error of the text-generation client, a content that does not parse,
    and a content that parses to something that is not an array. *)
Inductive generation_failure (topic : string) (n : Z) (w : world Σ) : Prop :=
  | capability_error e σ :
      chat_completions_create OPENAI_MODEL (keyword_messages topic n) (ext w)
        = (Raise e, σ) →
      generation_failure topic n w
  | malformed_json resp σ c e :
      chat_completions_create OPENAI_MODEL (keyword_messages topic n) (ext w)
        = (Ok resp, σ) →
      first_content resp = Ok c →
      loads c = Raise e →
      generation_failure topic n w
  | non_array resp σ c v :
      chat_completions_create OPENAI_MODEL (keyword_messages topic n) (ext w)
        = (Ok resp, σ) →
      first_content resp = Ok c →
      loads c = Ok v →
      (∀ l, v ≠ PList l) →
      generation_failure topic n w.

End Observations.

(** * Verification *)

(** ** Facts about the insertion-ordered dictionary *)
Module PyDictFacts.
Import PyDict.
Section Facts.
Context {V : Type}.
Implicit Types (d : PyDict.t V) (k : string) (v : V) (kvs : list (string * V)).

Lemma mem_spec k (ks : list string) :
  existsb (String.eqb k) ks = true ↔ In k ks.
Proof.
  rewrite existsb_exists. split.
  - intros (x & Hx & E). apply String.eqb_eq in E. now subst.
  - intros Hin. exists k. split; [assumption | apply String.eqb_refl].
Qed.



Lemma get_None_keys k d : get k d = None ↔ ¬ In k (keys d).
Proof.
  induction d as [| [k' v'] d IH]; simpl.
  - tauto.
  - destruct (String.eqb_spec k k') as [-> | Hk].
    + split; [discriminate | intros Hn; exfalso; apply Hn; now left].
    + rewrite IH. split.
      * intros Hn [E | Hin]; [congruence | tauto].
      * tauto.
Qed.

(** Assigning to a key that is present leaves the order of the keys as it
    is; a new key goes to the end. *)
Lemma keys_set k v d :
  keys (set k v d) = if existsb (String.eqb k) (keys d) then keys d else (keys d ++ [k])%list.
Proof.
  induction d as [| [k' v'] d IH]; simpl; [reflexivity |].
  destruct (String.eqb k k') eqn:E; simpl.
  - apply String.eqb_eq in E. now subst.
  - rewrite IH. now destruct (existsb (String.eqb k) (keys d)).
Qed.

Lemma keys_set_present k v d : In k (keys d) → keys (set k v d) = keys d.
Proof. intros Hin. rewrite keys_set. apply mem_spec in Hin. now rewrite Hin. Qed.

Lemma keys_set_fresh k v d : ¬ In k (keys d) → keys (set k v d) = (keys d ++ [k])%list.
Proof.
  intros Hn. rewrite keys_set.
  destruct (existsb (String.eqb k) (keys d)) eqn:E; [| reflexivity].
  apply mem_spec in E. contradiction.
Qed.

Lemma NoDup_keys_set k v d :
  NoDup (keys d) → NoDup (keys (set k v d)).
Proof.
  intros Hd. rewrite keys_set.
  destruct (existsb (String.eqb k) (keys d)) eqn:E; [assumption |].
  apply NoDup_app. split; [assumption |]. split.
  - intros x Hx Hk. apply list_elem_of_singleton in Hk. subst x.
    apply list_elem_of_In, mem_spec in Hx. congruence.
  - apply NoDup_singleton.
Qed.

Lemma set_all_cons k v kvs d : set_all ((k, v) :: kvs) d = set_all kvs (set k v d).
Proof. reflexivity. Qed.

Lemma set_all_app kvs1 kvs2 d :
  set_all (kvs1 ++ kvs2) d = set_all kvs2 (set_all kvs1 d).
Proof. unfold set_all. apply fold_left_app. Qed.

Lemma NoDup_keys_set_all kvs d :
  NoDup (keys d) → NoDup (keys (set_all kvs d)).
Proof.
  revert d. induction kvs as [| [k v] kvs IH]; intros d Hd; [assumption |].
  rewrite set_all_cons. apply IH, NoDup_keys_set, Hd.
Qed.



Lemma last_assigned_app k kvs1 kvs2 :
  last_assigned k (kvs1 ++ kvs2) =
  match last_assigned k kvs2 with
  | Some v => Some v
  | None => last_assigned k kvs1
  end.
Proof.
  induction kvs1 as [| [k' v'] kvs1 IH]; simpl.
  - now destruct (last_assigned k kvs2).
  - rewrite IH. now destruct (last_assigned k kvs2).
Qed.

Lemma last_assigned_None k kvs : last_assigned k kvs = None ↔ ¬ In k (map fst kvs).
Proof.
  induction kvs as [| [k' v'] kvs IH]; simpl; [tauto |].
  destruct (last_assigned k kvs) eqn:E.
  - split; [discriminate |]. intros Hn. exfalso.
    assert (Hin : ¬ In k (map fst kvs)) by tauto.
    apply IH in Hin. discriminate.
  - destruct (String.eqb_spec k k') as [-> | Hk].
    + split; [discriminate | intros Hn; exfalso; apply Hn; now left].
    + split; [| reflexivity]. intros _ [Heq | Hin]; [congruence |].
      now apply IH in Hin.
Qed.

(** Batches of assignments: the last batch that names a key decides. *)
Lemma last_assigned_concat k (before after : list (list (string * V))) b :
  In k (map fst b) →
  (∀ b', In b' after → ¬ In k (map fst b')) →
  last_assigned k (concat (before ++ b :: after)) = last_assigned k b.
Proof.
  intros Hin Hafter.
  rewrite concat_app, last_assigned_app. simpl. rewrite last_assigned_app.
  assert (E : last_assigned k (concat after) = None).
  { apply last_assigned_None. rewrite concat_map. intros Hc.
    apply in_concat in Hc as (ks & Hks & Hk).
    apply in_map_iff in Hks as (b' & <- & Hb'). exact (Hafter b' Hb' Hk). }
  rewrite E.
  destruct (last_assigned k b) eqn:Eb; [reflexivity |].
  apply last_assigned_None in Eb. contradiction.
Qed.

End Facts.
End PyDictFacts.

(** ** The collector and the activity measurement *)
Section Collector.
Context {Σ : Type} {C : Clients Σ}.
Implicit Types (w : world Σ) (σ : Σ) (authors : PyDict.t AuthorInfo).

Lemma now_eq w :
  now w = (Ok (fst (datetime_now (ext w))), set_ext (snd (datetime_now (ext w))) w).
Proof. unfold now, call. now destruct (datetime_now (ext w)). Qed.

(** [count_tweets] in one equation: the clock is read, the timeline is
    asked once, and whatever it answers becomes a count. *)
Lemma count_tweets_eq uid days w :
  count_tweets uid days w =
  let (t0, σ0) := datetime_now (ext w) in
  let (out, σ1) := get_users_tweets uid (isoformat (start_of_window t0 days)) 100 σ0 in
  (Ok (match out with Ok resp => count_of resp | Raise _ => 0 end), set_ext σ1 w).
Proof.
  unfold count_tweets, bind, try_except. rewrite now_eq.
  destruct (datetime_now (ext w)) as [t0 σ0]. simpl. unfold call. simpl.
  destruct (get_users_tweets _ _ _ σ0) as [[resp | e] σ1]; reflexivity.
Qed.

Lemma count_tweets_ok uid days w :
  ∃ t w', count_tweets uid days w = (Ok t, w') ∧ files w' = files w ∧ stdout w' = stdout w.
Proof.
  rewrite count_tweets_eq.
  destruct (datetime_now (ext w)) as [t0 σ0].
  destruct (get_users_tweets _ _ _ σ0) as [out σ1]. eauto.
Qed.

Lemma truthy_false_lookup {V} (m : gmap string V) k : truthy m = false → m !! k = None.
Proof.
  unfold truthy. intros E. apply negb_false_iff, Nat.eqb_eq in E.
  apply map_size_empty_inv in E. subst m. apply lookup_empty.
Qed.

Lemma reached_all us : forallb has_metrics us = true → reached us = us.
Proof.
  induction us as [| u us IH]; simpl; [reflexivity |].
  destruct (has_metrics u); simpl; [intros E; now rewrite IH | discriminate].
Qed.

(** The loop over the users of a response stores the users it reaches, and
    raises at the first user object without [public_metrics]. *)
Lemma store_users_eq us authors :
  store_users us authors =
  (PyDict.set_all (map assignment (reached us)) authors,
   if forallb has_metrics us then Ok tt
   else Raise (AttributeError "'NoneType' object has no attribute 'get'")).
Proof.
  revert authors. induction us as [| u us IH]; intros authors; [reflexivity |].
  simpl. unfold author_info, has_metrics.
  destruct (public_metrics u) as [metrics |] eqn:Hm; [| reflexivity].
  rewrite IH. simpl. unfold assignment at 2, author_key. now rewrite Hm.
Qed.

(** One keyword: the users its loop reaches are stored, and a warning is
    printed when the search or the loop raised; the body never raises. *)
Lemma search_keyword_eq start_time per_kw authors kw w :
  search_keyword start_time per_kw authors kw w =
  let (out, σ) :=
    search_recent_tweets (search_query kw) (Z.min per_kw 100) start_time
      ["author_id"] ["username"; "public_metrics"] (ext w) in
  (Ok (PyDict.set_all (map assignment (contribution out)) authors),
   World σ (files w) (stdout w ++ keyword_warning out)).
Proof.
  unfold search_keyword, search_block, call.
  destruct (search_recent_tweets _ _ _ _ _ (ext w)) as [[resp | e] σ];
    [| reflexivity].
  unfold contribution, keyword_warning, included_users, set_ext.
  destruct (includes resp) as [inc |]; [| simpl; now rewrite app_nil_r].
  destruct (truthy inc) eqn:T.
  - destruct (inc !! "users") as [us |]; [| simpl; now rewrite app_nil_r].
    simpl. rewrite store_users_eq.
    destruct (forallb has_metrics us); [simpl; now rewrite app_nil_r | reflexivity].
  - rewrite (truthy_false_lookup inc "users" T). simpl. now rewrite app_nil_r.
Qed.

Lemma stored_cons out outs : stored (out :: outs) = (contribution out ++ stored outs)%list.
Proof. reflexivity. Qed.


Lemma keyword_warnings_app outs1 outs2 :
  keyword_warnings (outs1 ++ outs2) =
  (keyword_warnings outs1 ++ keyword_warnings outs2)%list.
Proof. unfold keyword_warnings. now rewrite map_app, concat_app. Qed.

(** The whole loop: it runs through every keyword and never raises. *)
Lemma search_loop_eq start_time per_kw kws authors w :
  search_loop start_time per_kw kws authors w =
  let (outs, σ) := search_outcomes start_time per_kw kws (ext w) in
  (Ok (PyDict.set_all (map assignment (stored outs)) authors),
   World σ (files w) (stdout w ++ keyword_warnings outs)).
Proof.
  revert authors w. induction kws as [| kw rest IH]; intros authors w.
  - simpl. unfold ret. destruct w. simpl. now rewrite app_nil_r.
  - simpl. unfold bind. rewrite search_keyword_eq.
    destruct (search_recent_tweets _ _ _ _ _ (ext w)) as [out σ1].
    rewrite IH. simpl.
    destruct (search_outcomes start_time per_kw rest σ1) as [outs σ2].
    rewrite stored_cons, map_app, PyDictFacts.set_all_app.
    unfold keyword_warnings. simpl. now rewrite <- app_assoc.
Qed.

Lemma search_authors_eq kws days per_kw w :
  search_authors (PList kws) days per_kw w =
  let (t0, σ0) := datetime_now (ext w) in
  let (outs, σ1) :=
    search_outcomes (isoformat (start_of_window t0 days)) per_kw kws σ0 in
  (Ok (PyDict.set_all (map assignment (stored outs)) PyDict.empty),
   World σ1 (files w) (stdout w ++ keyword_warnings outs)).
Proof.
  unfold search_authors, bind. rewrite now_eq.
  destruct (datetime_now (ext w)) as [t0 σ0]. simpl.
  unfold lift_result. rewrite search_loop_eq. reflexivity.
Qed.







Lemma last_with_id_id uid us u :
  last_with_id uid us = Some u → str_int (user_id u) = uid ∧ In u us.
Proof.
  induction us as [| u0 us IH]; simpl; [discriminate |].
  destruct (last_with_id uid us) eqn:E.
  - intros [= <-]. destruct (IH eq_refl). auto.
  - destruct (String.eqb_spec uid (str_int (user_id u0))) as [-> | Hk];
      [| discriminate].
    intros [= <-]. auto.
Qed.






Lemma successes_app {A} (rs1 rs2 : list (result A)) :
  successes (rs1 ++ rs2) = (successes rs1 ++ successes rs2)%list.
Proof.
  induction rs1 as [| [a | e] rs1 IH]; simpl; [reflexivity | now rewrite IH | exact IH].
Qed.

End Collector.

(** ** The pipeline *)
Section Pipeline.
Context {Σ : Type} {C : Clients Σ}.
Implicit Types (w : world Σ) (σ : Σ) (authors : PyDict.t AuthorInfo).

(** The measurements take every candidate once, in the order of the map. *)
Lemma measurements_items items w : map fst (fst (measurements items w)) = items.
Proof.
  revert w. induction items as [| [uid info] rest IH]; intros w; [reflexivity |].
  simpl. destruct (count_tweets_ok uid 7 w) as (t & w1 & E & _). rewrite E.
  specialize (IH w1). destruct (measurements rest w1) as [ms w2].
  simpl in *. now rewrite IH.
Qed.

Lemma measurements_files items w :
  files (snd (measurements items w)) = files w ∧
  stdout (snd (measurements items w)) = stdout w.
Proof.
  revert w. induction items as [| [uid info] rest IH]; intros w; [easy |].
  simpl. destruct (count_tweets_ok uid 7 w) as (t & w1 & E & Hf & Hs). rewrite E.
  specialize (IH w1). destruct (measurements rest w1) as [ms w2].
  simpl in *. destruct IH. split; congruence.
Qed.

(** The loop of [run_pipeline] returns the entries of the measured
    candidates that pass the test, after what it was given. *)
Lemma pipeline_loop_eq items acc w :
  pipeline_loop items acc w =
  let (ms, w') := measurements items w in
  (Ok (acc ++ map entry_of (List.filter qualifies ms))%list, w').
Proof.
  revert acc w. induction items as [| [uid info] rest IH]; intros acc w.
  - simpl. unfold ret. now rewrite app_nil_r.
  - simpl. unfold bind.
    destruct (count_tweets_ok uid 7 w) as (t & w1 & E & _). rewrite E.
    destruct ((MIN_FOLLOWERS <=? info_followers info) && (MIN_TWEETS_2W <=? t)) eqn:Q;
      rewrite IH; destruct (measurements rest w1) as [ms w2]; simpl; rewrite Q;
      simpl; now rewrite <- ?app_assoc.
Qed.

(** The loop of the task function is the loop of [run_pipeline]. *)
Lemma task_loop_pipeline_loop items acc w :
  task_loop items acc w = pipeline_loop items acc w.
Proof.
  revert acc w. induction items as [| [uid info] rest IH]; intros acc w; [reflexivity |].
  simpl. unfold bind. destruct (count_tweets uid 7 w) as [[t | e] w1]; [| reflexivity].
  destruct ((MIN_FOLLOWERS <=? info_followers info) && (MIN_TWEETS_2W <=? t)); apply IH.
Qed.

(** [run_pipeline] in one equation. *)
Lemma run_pipeline_eq topic w :
  run_pipeline topic w =
  match generate_keywords topic 3 w with
  | (Raise e, w1) => (Raise e, w1)
  | (Ok kws, w1) =>
      match search_authors kws 7 10 w1 with
      | (Raise e, w2) => (Raise e, w2)
      | (Ok authors, w2) =>
          let (ms, w3) := measurements (PyDict.items authors) w2 in
          let results := map entry_of (List.filter qualifies ms) in
          (Ok results,
           World (ext w3)
                 (<["results.json" := JsonDocument topic (Entries results)]> (files w3))
                 (stdout w3 ++ [saved_line (length results)]))
      end
  end.
Proof.
  unfold run_pipeline, bind.
  destruct (generate_keywords topic 3 w) as [[kws | e] w1]; [| reflexivity].
  destruct (search_authors kws 7 10 w1) as [[authors | e] w2]; [| reflexivity].
  rewrite pipeline_loop_eq.
  destruct (measurements (PyDict.items authors) w2) as [ms w3]. reflexivity.
Qed.

Lemma search_and_filter_eq topic ctx w :
  search_and_filter topic ctx w =
  match generate_keywords topic 3 w with
  | (Raise e, w1) => (Raise e, w1)
  | (Ok kws, w1) =>
      match search_authors kws 7 10 w1 with
      | (Raise e, w2) => (Raise e, w2)
      | (Ok authors, w2) =>
          let (ms, w3) := measurements (PyDict.items authors) w2 in
          (Ok (map entry_of (List.filter qualifies ms)), w3)
      end
  end.
Proof.
  unfold search_and_filter, bind.
  destruct (generate_keywords topic 3 w) as [[kws | e] w1]; [| reflexivity].
  destruct (search_authors kws 7 10 w1) as [[authors | e] w2]; [| reflexivity].
  rewrite task_loop_pipeline_loop, pipeline_loop_eq.
  destruct (measurements (PyDict.items authors) w2) as [ms w3]. reflexivity.
Qed.

(** [generate_keywords] when the text-generation client raises: the call
    stands before the [try], and the exception leaves the function. *)
Lemma generate_keywords_raises topic n w e σ :
  chat_completions_create OPENAI_MODEL (keyword_messages topic n) (ext w) = (Raise e, σ) →
  generate_keywords topic n w = (Raise e, set_ext σ w).
Proof. intros E. unfold generate_keywords, bind, call. now rewrite E. Qed.

(** [generate_keywords] when the client answers: the parsed content, or the
    fallback list when reading or parsing the content raises. *)
Lemma generate_keywords_answers topic n w resp σ :
  chat_completions_create OPENAI_MODEL (keyword_messages topic n) (ext w) = (Ok resp, σ) →
  generate_keywords topic n w =
  (Ok (match first_content resp with
       | Ok c => match loads c with Ok v => v | Raise _ => FALLBACK_KEYWORDS end
       | Raise _ => FALLBACK_KEYWORDS
       end), set_ext σ w).
Proof.
  intros E. unfold generate_keywords, bind, call, try_except, lift_result. rewrite E.
  destruct (first_content resp) as [c | e]; [| reflexivity].
  now destruct (loads c).
Qed.

Lemma run_pipeline_raises topic w e σ :
  chat_completions_create OPENAI_MODEL (keyword_messages topic 3) (ext w) = (Raise e, σ) →
  run_pipeline topic w = (Raise e, set_ext σ w).
Proof.
  intros E. rewrite run_pipeline_eq. now rewrite (generate_keywords_raises _ _ _ _ _ E).
Qed.

End Pipeline.

(** A goal about a run of [run_pipeline] that returned: split the run into
    its keywords, its candidate map and its measurements. *)
Ltac returned_run topic w :=
  rewrite run_pipeline_eq;
  destruct (generate_keywords topic 3 w) as [[?kws | ?x] ?w1]; [| discriminate];
  destruct (search_authors _ 7 10 _) as [[?authors | ?x] ?w2]; [| discriminate];
  destruct (measurements (PyDict.items _) _) as [?ms ?w3].

(** ** Rounding the weekly rate *)
Section Rounding.




End Rounding.

(** ** The properties of the collector and of the measurement *)
Section CollectorProperties.
Context {Σ : Type} {C : Clients Σ}.
Implicit Types (w : world Σ) (σ : Σ) (authors : PyDict.t AuthorInfo).

(** C8: [count_tweets] returns for every author id and every answer of the
    timeline client: the number of posts when the response has data, 0 when
    there is no response or no data, and 0 when the client raises; it never
    raises itself. *)
Theorem count_tweets_total uid days w :
  let (t0, σ0) := datetime_now (ext w) in
  let (out, σ1) := get_users_tweets uid (isoformat (start_of_window t0 days)) 100 σ0 in
  ∃ n, count_tweets uid days w = (Ok n, set_ext σ1 w) ∧
       match out with
       | Ok (Some {| data := Some posts |}) => n = Z.of_nat (length posts)
       | Ok (Some {| data := None |}) => n = 0
       | Ok None => n = 0
       | Raise _ => n = 0
       end.
Proof.
  rewrite count_tweets_eq.
  destruct (datetime_now (ext w)) as [t0 σ0].
  destruct (get_users_tweets _ _ _ σ0) as [out σ1].
  eexists. split; [reflexivity |].
  destruct out as [[[[[| p ps] |]] |] | e]; reflexivity.
Qed.



End CollectorProperties.

(** ** The properties of the pipeline *)
Section PipelineProperties.
Context {Σ : Type} {C : Clients Σ}.
Implicit Types (w : world Σ) (σ : Σ) (authors : PyDict.t AuthorInfo).

Lemma qualifies_spec uid info t :
  qualifies (uid, info, t) = true ↔ 5000 ≤ info_followers info ∧ 6 ≤ t.
Proof.
  unfold qualifies, MIN_FOLLOWERS, MIN_TWEETS_2W.
  rewrite andb_true_iff, !Z.leb_le. reflexivity.
Qed.

Lemma make_entry_inj info1 t1 info2 t2 :
  make_entry info1 t1 = make_entry info2 t2 →
  info_followers info1 = info_followers info2 ∧ t1 = t2.
Proof. unfold make_entry. intros E. injection E. auto. Qed.

(** The entries of a list of measured candidates. *)
Lemma in_summary e ms :
  In e (map entry_of (List.filter qualifies ms)) ↔
  ∃ uid info t, In (uid, info, t) ms ∧ qualifies (uid, info, t) = true
                ∧ e = make_entry info t.
Proof.
  rewrite in_map_iff. split.
  - intros ([[uid info] t] & <- & Hin). apply filter_In in Hin as [Hin Q].
    exists uid, info, t. auto.
  - intros (uid & info & t & Hin & Q & ->). exists (uid, info, t).
    split; [reflexivity |]. apply filter_In. auto.
Qed.

(** What [run_pipeline] leaves behind when it returns. *)
Lemma run_pipeline_sink topic w results w' :
  run_pipeline topic w = (Ok results, w') →
  files w' !! "results.json" = Some (JsonDocument topic (Entries results)).
Proof.
  returned_run topic w.
  intros E. injection E as <- <-. simpl. apply lookup_insert_eq.
Qed.

(** Once the keywords are a list, nothing stops the run: whatever the
    search and the timeline clients do, [run_pipeline] returns and the
    result is in results.json. *)
Lemma run_pipeline_completes topic w kws w1 :
  generate_keywords topic 3 w = (Ok (PList kws), w1) →
  ∃ results w',
    run_pipeline topic w = (Ok results, w')
    ∧ files w' !! "results.json" = Some (JsonDocument topic (Entries results)).
Proof.
  intros Hg.
  assert (∃ results w', run_pipeline topic w = (Ok results, w')) as (results & w' & E).
  { rewrite run_pipeline_eq, Hg, search_authors_eq.
    destruct (datetime_now (ext w1)) as [t0 σ0].
    destruct (search_outcomes _ 10 kws σ0) as [outs σ1].
    destruct (measurements _ _) as [ms w3]. eauto. }
  exists results, w'. split; [exact E | exact (run_pipeline_sink _ _ _ _ E)].
Qed.

(** C1: from the same world, the task function [search_and_filter] of the
    orchestration path and [run_pipeline] have the same outcome: the same
    sequence of result entries, or the same exception; and they leave the
    outside world in the same state. *)
Theorem search_and_filter_same_results topic ctx w :
  fst (search_and_filter topic ctx w) = fst (run_pipeline topic w)
  ∧ ext (snd (search_and_filter topic ctx w)) = ext (snd (run_pipeline topic w)).
Proof.
  rewrite search_and_filter_eq, run_pipeline_eq.
  destruct (generate_keywords topic 3 w) as [[kws | e] w1]; [| easy].
  destruct (search_authors kws 7 10 w1) as [[authors | e] w2]; [| easy].
  now destruct (measurements (PyDict.items authors) w2) as [ms w3].
Qed.

(** C4: when [run_pipeline] has its keywords and its candidate map, it
    returns, every candidate of the map is measured once, and a measured
    candidate has its entry in the result iff it has at least 5000
    followers and at least 6 recent posts; 5000 followers with 6 posts
    pass, 4999 followers or 5 posts do not. *)
Theorem filter_thresholds_inclusive topic w kws w1 authors w2 :
  generate_keywords topic 3 w = (Ok kws, w1) →
  search_authors kws 7 10 w1 = (Ok authors, w2) →
  let ms := fst (measurements (PyDict.items authors) w2) in
  map fst ms = PyDict.items authors
  ∧ (∃ results w3,
       run_pipeline topic w = (Ok results, w3)
       ∧ ∀ uid info t,
           In (uid, info, t) ms →
           (In (make_entry info t) results ↔ 5000 ≤ info_followers info ∧ 6 ≤ t))
  ∧ (∀ uid name,
       qualifies (uid, {| info_username := name; info_followers := 5000 |}, 6) = true)
  ∧ (∀ uid name t,
       qualifies (uid, {| info_username := name; info_followers := 4999 |}, t) = false)
  ∧ (∀ uid name n,
       qualifies (uid, {| info_username := name; info_followers := n |}, 5) = false).
Proof.
  intros Hg Hs ms. split; [apply measurements_items |]. split.
  - rewrite run_pipeline_eq, Hg, Hs. subst ms.
    destruct (measurements (PyDict.items authors) w2) as [ms w3]. simpl.
    eexists _, _. split; [reflexivity |].
    intros uid info t Hin. rewrite in_summary. split.
    + intros (uid' & info' & t' & _ & Q & E).
      apply qualifies_spec in Q. apply make_entry_inj in E as [-> ->]. exact Q.
    + intros Q. exists uid, info, t. rewrite qualifies_spec. auto.
  - split; [reflexivity |]. split.
    + reflexivity.
    + intros uid name n. unfold qualifies. simpl. apply andb_false_r.
Qed.




(** C3, as the code has it: when the text-generation client answers,
    [generate_keywords] does not raise; it returns the fallback list when
    the content of the answer cannot be read or does not parse, and the
    parsed value as it is when the content parses, whether it is an array
    or not. *)
Theorem generate_keywords_fallback topic n w resp σ :
  chat_completions_create OPENAI_MODEL (keyword_messages topic n) (ext w) = (Ok resp, σ) →
  (∀ e, first_content resp = Raise e →
        generate_keywords topic n w = (Ok FALLBACK_KEYWORDS, set_ext σ w))
  ∧ (∀ c e, first_content resp = Ok c → loads c = Raise e →
        generate_keywords topic n w = (Ok FALLBACK_KEYWORDS, set_ext σ w))
  ∧ (∀ c v, first_content resp = Ok c → loads c = Ok v →
        generate_keywords topic n w = (Ok v, set_ext σ w))
  ∧ FALLBACK_KEYWORDS = PList [PStr "US stock market"; PStr "Wall Street"; PStr "S&P 500"].
Proof.
  intros E. rewrite (generate_keywords_answers _ _ _ _ _ E).
  split; [| split; [| split]].
  - intros e ->. reflexivity.
  - intros c e -> ->. reflexivity.
  - intros c v -> ->. reflexivity.
  - reflexivity.
Qed.

(** C9, as the code has it: without the orchestration library
    [run_crewai] is [run_pipeline], which writes results.json and nothing
    else; with it, when the run of the crew or the reading of its output
    raises, the failure is printed, [run_pipeline] runs from there, and what
    it returns is returned and written to results_crewai.json, next to the
    results.json that [run_pipeline] wrote. *)
Theorem run_crewai_fallback topic w :
  (CREWAI_AVAILABLE = false →
   run_crewai topic w =
   match run_pipeline topic w with
   | (Ok results, w') => (Ok (Entries results), w')
   | (Raise e, w') => (Raise e, w')
   end)
  ∧ (CREWAI_AVAILABLE = true →
     ∀ a σ1 t1 σ2 crew σ3 e w4 results w5,
       Agent agent_args (ext w) = (Ok a, σ1) →
       Task (task_args topic a) σ1 = (Ok t1, σ2) →
       Crew (crew_args a t1) σ2 = (Ok crew, σ3) →
       (result <- kickoff crew ;; extract result) (set_ext σ3 w) = (Raise e, w4) →
       run_pipeline topic
         (World (ext w4) (files w4) (stdout w4 ++ [failed_line e])) = (Ok results, w5) →
       run_crewai topic w =
         (Ok (Entries results),
          World (ext w5)
                (<["results_crewai.json" := JsonDocument topic (Entries results)]> (files w5))
                (stdout w5 ++ [finished_line (Z.of_nat (length results))]))
       ∧ files w5 !! "results.json" = Some (JsonDocument topic (Entries results))).
Proof.
  split.
  - intros Ha. unfold run_crewai. rewrite Ha. simpl. unfold bind.
    now destruct (run_pipeline topic w) as [[results | e] w'].
  - intros Ha a σ1 t1 σ2 crew σ3 e w4 results w5 HA HT HC HK HP.
    split; [| exact (run_pipeline_sink _ _ _ _ HP)].
    unfold run_crewai. rewrite Ha. simpl.
    unfold bind at 1. unfold call at 1. rewrite HA.
    unfold bind at 1. unfold call at 1. simpl. rewrite HT.
    unfold bind at 1. unfold call at 1. simpl. rewrite HC.
    unfold bind at 1. unfold try_except. simpl.
    change (set_ext σ3 (set_ext σ2 (set_ext σ1 w))) with (set_ext σ3 w).
    rewrite HK. cbv [bind print]. rewrite HP. reflexivity.
Qed.

End PipelineProperties.

(** ** Runs on scripted clients *)
Section Scenarios.
Import Scripted.

(** The end-to-end scenario: only A is in the result; B has too few
    followers; the keyword whose search failed is skipped with a warning. *)
Example market_run :
  run_pipeline (C := clients market) topic w0 =
  (Ok [entry "A" 8000 10 5],
   World 6%nat
     {[ "results.json" := JsonDocument topic (Entries [entry "A" 8000 10 5]) ]}
     ["warn: no answer"; "saved 1 users to results.json"]).
Proof. vm_compute. reflexivity. Qed.

Example market_authors :
  fst (search_authors (C := clients market)
         (PList [PStr "stocks"; PStr "Fed"; PStr "earnings"]) 7 10 w0) =
  Ok [("1", {| info_username := "A"; info_followers := 8000 |});
      ("2", {| info_username := "B"; info_followers := 3000 |})].
Proof. vm_compute. reflexivity. Qed.

(** Keywords that are a number, not a list: the loop over them raises. *)
Example number_keywords_run :
  run_pipeline (C := clients chat_number) topic w0 =
  (Raise (TypeError "'int' object is not iterable"), World 1%nat ∅ []).
Proof. vm_compute. reflexivity. Qed.

(** Text that is not JSON: the fallback keywords are searched, and an empty
    result is saved. *)
Example prose_run :
  fst (run_pipeline (C := clients chat_prose) topic w0) = Ok []
  ∧ files (snd (run_pipeline (C := clients chat_prose) topic w0)) !! "results.json"
    = Some (JsonDocument topic (Entries [])).
Proof. split; vm_compute; reflexivity. Qed.

Example thresholds_run :
  fst (run_pipeline (C := clients thresholds) topic w0) =
  Ok [entry "E" 5000 6 3; entry "I" 7000 7 (7 # 2)].
Proof. vm_compute. reflexivity. Qed.

(** C2: the text-generation client is unreachable: [run_pipeline] raises
    the client's exception after that one call, returns no result and
    writes no file. *)
Theorem run_pipeline_aborts_when_generation_raises :
  chat_completions_create (Clients := clients chat_down)
    (OPENAI_MODEL (C := clients chat_down)) (keyword_messages topic 3) (ext w0) = (Raise network_down, 1%nat)
  ∧ run_pipeline (C := clients chat_down) topic w0
    = (Raise network_down, World 1%nat ∅ []).
Proof.
  split; [reflexivity |].
  apply (run_pipeline_raises (C := clients chat_down) topic w0 network_down 1%nat).
  reflexivity.
Qed.

(** C3, as stated, fails: the model answers with the JSON number 42, which
    is one of the failing outcomes (a value that is not an array), and
    [generate_keywords] returns 42, not the fallback list. *)
Lemma generate_keywords_returns_non_array :
  generation_failure (C := clients chat_number) topic 3 w0
  ∧ fst (generate_keywords (C := clients chat_number) topic 3 w0) = Ok (PInt 42)
  ∧ fst (generate_keywords (C := clients chat_number) topic 3 w0)
    ≠ Ok FALLBACK_KEYWORDS.
Proof.
  split; [| split].
  - apply (non_array (C := clients chat_number) topic 3 w0
             (completion "42") 1%nat (Some "42") (PInt 42));
      [reflexivity | reflexivity | reflexivity | discriminate].
  - reflexivity.
  - discriminate.
Qed.

Lemma generate_keywords_fallback_witness :
  chat_completions_create (Clients := clients chat_prose)
    (OPENAI_MODEL (C := clients chat_prose)) (keyword_messages topic 3) (ext w0)
  = (Ok (completion "Sure! Here are some keywords"), 1%nat)
  ∧ generate_keywords (C := clients chat_prose) topic 3 w0
    = (Ok (PList [PStr "US stock market"; PStr "Wall Street"; PStr "S&P 500"]),
       World 1%nat ∅ []).
Proof.
  split; [reflexivity |].
  destruct (generate_keywords_fallback (C := clients chat_prose) topic 3 w0
              (completion "Sure! Here are some keywords") 1%nat eq_refl)
    as (_ & H & _).
  exact (H (Some "Sure! Here are some keywords")
           (Exception "JSONDecodeError" "Expecting value") eq_refl eq_refl).
Defined.

Lemma filter_thresholds_inclusive_witness :
  ∃ results w3,
    run_pipeline (C := clients thresholds) topic w0 = (Ok results, w3)
    ∧ (In (make_entry {| info_username := "E"; info_followers := 5000 |} 6) results
       ↔ 5000 ≤ 5000 ∧ 6 ≤ 6)
    ∧ (In (make_entry {| info_username := "F"; info_followers := 4999 |} 50) results
       ↔ 5000 ≤ 4999 ∧ 6 ≤ 50)
    ∧ (In (make_entry {| info_username := "G"; info_followers := 9000 |} 5) results
       ↔ 5000 ≤ 9000 ∧ 6 ≤ 5).
Proof.
  edestruct (filter_thresholds_inclusive (C := clients thresholds) topic w0)
    as (_ & (results & w3 & E & H) & _).
  - vm_compute. reflexivity.
  - vm_compute. reflexivity.
  - exists results, w3. split; [exact E |].
    split; [| split].
    + apply (H "5"). vm_compute. auto.
    + apply (H "6"). vm_compute. auto.
    + apply (H "7"). vm_compute. auto 10.
Defined.






(** C9, as stated, fails: without the orchestration library [run_crewai]
    takes the direct path, and the result is in results.json; there is no
    results_crewai.json. *)
Lemma run_crewai_unavailable_writes_direct_sink :
  CREWAI_AVAILABLE (Clients := clients market) = false
  ∧ fst (run_crewai (C := clients market) topic w0) = Ok (Entries [entry "A" 8000 10 5])
  ∧ files (snd (run_crewai (C := clients market) topic w0)) !! "results_crewai.json" = None
  ∧ files (snd (run_crewai (C := clients market) topic w0)) !! "results.json"
    = Some (JsonDocument topic (Entries [entry "A" 8000 10 5])).
Proof. repeat split; vm_compute; reflexivity. Qed.

Lemma run_crewai_fallback_witness :
  run_crewai (C := clients market) topic w0
  = (Ok (Entries [entry "A" 8000 10 5]),
     World 6%nat
       {[ "results.json" := JsonDocument topic (Entries [entry "A" 8000 10 5]) ]}
       ["warn: no answer"; "saved 1 users to results.json"])
  ∧ ∃ w', run_crewai (C := clients crew_fails) topic w0
          = (Ok (Entries [entry "A" 8000 10 5]), w')
          ∧ files w' !! "results_crewai.json"
            = Some (JsonDocument topic (Entries [entry "A" 8000 10 5]))
          ∧ files w' !! "results.json"
            = Some (JsonDocument topic (Entries [entry "A" 8000 10 5])).
Proof.
  split.
  - destruct (run_crewai_fallback (C := clients market) topic w0) as [H _].
    rewrite (H eq_refl). vm_compute. reflexivity.
  - destruct (run_crewai_fallback (C := clients crew_fails) topic w0) as [_ H].
    edestruct (H eq_refl) as [E F].
    + reflexivity.
    + reflexivity.
    + reflexivity.
    + vm_compute. reflexivity.
    + vm_compute. reflexivity.
    + eexists. split; [exact E |]. split; [| vm_compute; reflexivity].
      vm_compute. reflexivity.
Defined.

End Scenarios.

(** ** Further properties of the program *)
Section Effects.
Context {Σ : Type} {C : Clients Σ}.
Implicit Types (w : world Σ) (σ : Σ) (authors : PyDict.t AuthorInfo).

(** [generate_keywords] neither writes nor prints. *)
Lemma generate_keywords_frame topic n w :
  files (snd (generate_keywords topic n w)) = files w
  ∧ stdout (snd (generate_keywords topic n w)) = stdout w.
Proof.
  unfold generate_keywords, bind, call, try_except, lift_result.
  destruct (chat_completions_create _ _ (ext w)) as [[resp | e] σ]; [| easy].
  destruct (first_content resp) as [c | e]; [| easy].
  now destruct (loads c).
Qed.

(** [search_authors] on any value: the clock is read, then the value is
    iterated. *)
Lemma search_authors_iter v days per_kw w :
  search_authors v days per_kw w =
  let (t0, σ0) := datetime_now (ext w) in
  match py_iter v with
  | Raise e => (Raise e, set_ext σ0 w)
  | Ok kws =>
      let (outs, σ1) :=
        search_outcomes (isoformat (start_of_window t0 days)) per_kw kws σ0 in
      (Ok (PyDict.set_all (map assignment (stored outs)) PyDict.empty),
       World σ1 (files w) (stdout w ++ keyword_warnings outs))
  end.
Proof.
  unfold search_authors, bind. rewrite now_eq.
  destruct (datetime_now (ext w)) as [t0 σ0]. simpl. unfold lift_result.
  destruct (py_iter v) as [kws | e]; [| reflexivity].
  rewrite search_loop_eq. reflexivity.
Qed.

Lemma search_authors_frame v days per_kw w :
  files (snd (search_authors v days per_kw w)) = files w.
Proof.
  rewrite search_authors_iter. destruct (datetime_now (ext w)) as [t0 σ0].
  destruct (py_iter v) as [kws | e]; [| reflexivity].
  now destruct (search_outcomes _ per_kw kws σ0).
Qed.

Lemma sublist_filter_bool {A} (f : A → bool) (l : list A) :
  sublist (List.filter f l) l.
Proof.
  induction l as [| a l IH]; simpl; [constructor |].
  destruct (f a); now constructor.
Qed.

Lemma sublist_map {A B} (f : A → B) (l1 l2 : list A) :
  sublist l1 l2 → sublist (map f l1) (map f l2).
Proof. induction 1; simpl; now constructor. Qed.

End Effects.

Section RunProperties.
Context {Σ : Type} {C : Clients Σ}.
Implicit Types (w : world Σ) (σ : Σ) (authors : PyDict.t AuthorInfo).

(** X1: keywords that are not iterable (a JSON number, boolean or null)
    stop the run: [run_pipeline] raises the [TypeError] of the loop header
    after reading the clock, before any search, and no file is written. *)
Theorem run_pipeline_keywords_not_iterable topic w v w1 e :
  generate_keywords topic 3 w = (Ok v, w1) →
  py_iter v = Raise e →
  run_pipeline topic w = (Raise e, set_ext (snd (datetime_now (ext w1))) w1)
  ∧ files w1 = files w.
Proof.
  intros Hg Hi. split.
  - rewrite run_pipeline_eq, Hg, search_authors_iter.
    destruct (datetime_now (ext w1)) as [t0 σ0]. now rewrite Hi.
  - pose proof (generate_keywords_frame topic 3 w) as [F _]. now rewrite Hg in F.
Qed.

(** X2: whatever the clients do, [run_pipeline] changes no file other than
    results.json: when it returns, the files are the old ones with
    results.json replaced by the new document; when it raises, they are
    the old ones. *)
Theorem run_pipeline_touches_only_its_sink topic w :
  match run_pipeline topic w with
  | (Ok results, w') =>
      files w' = <["results.json" := JsonDocument topic (Entries results)]> (files w)
  | (Raise _, w') => files w' = files w
  end.
Proof.
  rewrite run_pipeline_eq.
  pose proof (generate_keywords_frame topic 3 w) as [F1 _].
  destruct (generate_keywords topic 3 w) as [[v | e] w1]; simpl in F1; [| exact F1].
  pose proof (search_authors_frame v 7 10 w1) as F2.
  destruct (search_authors v 7 10 w1) as [[authors | e] w2]; simpl in F2;
    [| congruence].
  pose proof (measurements_files (PyDict.items authors) w2) as [F3 _].
  destruct (measurements (PyDict.items authors) w2) as [ms w3]. simpl in *.
  congruence.
Qed.

(** X3: what a run that returns has printed: one warning line for each
    keyword whose [try] block raised, in the order of the keywords (the
    search raised, or the loop met a user object without
    [public_metrics]), then the line that tells how many users were saved;
    a failed measurement prints nothing. *)
Theorem run_pipeline_prints topic w v w1 kws results w' :
  generate_keywords topic 3 w = (Ok v, w1) →
  py_iter v = Ok kws →
  run_pipeline topic w = (Ok results, w') →
  let (t0, σ0) := datetime_now (ext w1) in
  let outs := fst (search_outcomes (isoformat (start_of_window t0 7)) 10 kws σ0) in
  stdout w' = (stdout w ++ keyword_warnings outs ++ [saved_line (length results)])%list.
Proof.
  intros Hg Hi.
  pose proof (generate_keywords_frame topic 3 w) as [_ F1]. rewrite Hg in F1.
  rewrite run_pipeline_eq, Hg, search_authors_iter.
  destruct (datetime_now (ext w1)) as [t0 σ0]. rewrite Hi.
  destruct (search_outcomes _ 10 kws σ0) as [outs σ1]. cbv zeta.
  match goal with |- context [measurements ?i ?w2] =>
    pose proof (measurements_files i w2) as [_ F3];
    destruct (measurements i w2) as [ms w3] end.
  intros E. injection E as <- <-. simpl in *.
  rewrite F3, F1. now rewrite <- app_assoc.
Qed.

(** X4: the result keeps the order of the candidate map: the handles of
    the entries are a sublist of the handles of the map, in its iteration
    order; so there are at most as many entries as candidates. *)
Theorem results_follow_map_order topic w v w1 authors w2 :
  generate_keywords topic 3 w = (Ok v, w1) →
  search_authors v 7 10 w1 = (Ok authors, w2) →
  ∃ results w',
    run_pipeline topic w = (Ok results, w')
    ∧ sublist (map username results)
              (map (fun kv => info_username (snd kv)) (PyDict.items authors))
    ∧ (length results ≤ length authors)%nat.
Proof.
  intros Hg Hs. rewrite run_pipeline_eq, Hg, Hs.
  pose proof (measurements_items (PyDict.items authors) w2) as Hm.
  destruct (measurements (PyDict.items authors) w2) as [ms w3]. simpl in Hm.
  eexists _, _. split; [reflexivity |].
  assert (S : sublist (map username (map entry_of (List.filter qualifies ms)))
                      (map (fun kv => info_username (snd kv)) (PyDict.items authors))).
  { rewrite <- Hm, !map_map.
    rewrite (map_ext (fun m => username (entry_of m))
                     (fun m => info_username (snd (fst m)))).
    - apply sublist_map, sublist_filter_bool.
    - intros [[uid info] t]. reflexivity. }
  split; [exact S |].
  apply sublist_length in S. rewrite !length_map in S. rewrite length_map. exact S.
Qed.

(** X5: every entry of a result is well formed: its profile URL is
    https://x.com/ followed by its handle, it has at least 5000 followers
    and at least 6 recent posts. *)
Theorem entries_well_formed topic w results w' :
  run_pipeline topic w = (Ok results, w') →
  ∀ e, In e results →
    profile_url e = "https://x.com/" ++ username e
    ∧ 5000 ≤ followers e
    ∧ 6 ≤ tweets_last_2_weeks e.
Proof.
  returned_run topic w. intros E e Hin. injection E as <- _.
  apply in_summary in Hin as (uid & info & t & _ & Q & ->).
  apply qualifies_spec in Q. simpl. tauto.
Qed.

(** The clients with a log leave the log alone, except for the timeline
    client, which adds the id it is asked for. *)
Lemma logged_generate_keywords topic n (w : world (Σ * list string)) :
  snd (ext (snd (generate_keywords (C := logged C) topic n w))) = snd (ext w).
Proof.
  unfold generate_keywords, bind, call, try_except, lift_result. simpl.
  destruct (chat_completions_create _ _ (fst (ext w))) as [[resp | e] σ]; [| easy].
  destruct (first_content resp) as [c | e]; [| easy].
  now destruct (loads (C := logged C) c).
Qed.

Lemma logged_search_outcomes start_time per_kw kws (s : Σ * list string) :
  snd (snd (search_outcomes (C := logged C) start_time per_kw kws s)) = snd s.
Proof.
  revert s. induction kws as [| kw rest IH]; intros s; [reflexivity |].
  simpl. destruct (search_recent_tweets _ _ _ _ _ (fst s)) as [r σ].
  specialize (IH (σ, snd s)).
  now destruct (search_outcomes (C := logged C) start_time per_kw rest (σ, snd s)).
Qed.

Lemma logged_search_authors v days per_kw (w : world (Σ * list string)) :
  snd (ext (snd (search_authors (C := logged C) v days per_kw w))) = snd (ext w).
Proof.
  rewrite (search_authors_iter (C := logged C)). simpl.
  destruct (datetime_now (fst (ext w))) as [t0 σ0].
  destruct (py_iter v) as [kws | e]; [| reflexivity].
  pose proof (logged_search_outcomes (isoformat (start_of_window t0 days)) per_kw kws
                (σ0, snd (ext w))) as L.
  now destruct (search_outcomes (C := logged C) _ per_kw kws (σ0, snd (ext w))).
Qed.

Lemma logged_measurements items (w : world (Σ * list string)) :
  snd (ext (snd (measurements (C := logged C) items w)))
  = (snd (ext w) ++ map fst items)%list.
Proof.
  revert w. induction items as [| [uid info] rest IH]; intros w.
  - simpl. now rewrite app_nil_r.
  - simpl. rewrite (count_tweets_eq (C := logged C)). simpl.
    destruct (datetime_now (fst (ext w))) as [t0 σ0]. simpl.
    destruct (get_users_tweets uid _ 100 σ0) as [out σ1].
    match goal with |- context [measurements rest ?w1] =>
      specialize (IH w1); destruct (measurements (C := logged C) rest w1) as [ms w2]
    end.
    simpl in *. rewrite IH. now rewrite <- app_assoc.
Qed.

Lemma search_authors_keys_NoDup {Σ' : Type} {C' : Clients Σ'} v days per_kw
    (w : world Σ') authors (w2 : world Σ') :
  search_authors (C := C') v days per_kw w = (Ok authors, w2) →
  NoDup (PyDict.keys authors).
Proof.
  rewrite (search_authors_iter (C := C')). destruct (datetime_now (ext w)) as [t0 σ0].
  destruct (py_iter v) as [kws | e]; [| discriminate].
  destruct (search_outcomes _ per_kw kws σ0) as [outs σ1].
  intros E. injection E as <- _.
  apply PyDictFacts.NoDup_keys_set_all. constructor.
Qed.

(** X6: an author found by several keywords is measured once: over
    clients that log the ids the timeline client is asked for, a run of
    [run_pipeline] that returns has added to the log exactly the keys of
    the map [search_authors] returned in that run, in the order of the map,
    and no id twice. *)
Theorem authors_measured_once topic (w w' : world (Σ * list string)) results :
  run_pipeline (C := logged C) topic w = (Ok results, w') →
  ∃ v (w1 : world (Σ * list string)) authors (w2 : world (Σ * list string)),
    generate_keywords (C := logged C) topic 3 w = (Ok v, w1)
    ∧ search_authors (C := logged C) v 7 10 w1 = (Ok authors, w2)
    ∧ snd (ext w') = (snd (ext w) ++ PyDict.keys authors)%list
    ∧ NoDup (PyDict.keys authors).
Proof.
  rewrite (run_pipeline_eq (C := logged C)).
  pose proof (logged_generate_keywords topic 3 w) as L1.
  destruct (generate_keywords (C := logged C) topic 3 w) as [[v | e] w1] eqn:Hg;
    [| discriminate].
  pose proof (logged_search_authors v 7 10 w1) as L2.
  destruct (search_authors (C := logged C) v 7 10 w1) as [[authors | e] w2] eqn:Hs;
    [| discriminate].
  pose proof (logged_measurements (PyDict.items authors) w2) as L3.
  destruct (measurements (C := logged C) (PyDict.items authors) w2) as [ms w3].
  intros E. injection E as _ <-. simpl in *.
  exists v, w1, authors, w2. split; [reflexivity |]. split; [exact Hs |].
  split; [| exact (search_authors_keys_NoDup (C' := logged C) _ _ _ _ _ _ Hs)].
  rewrite L3, L2, L1. reflexivity.
Qed.

(** X7: [run_pipeline] is the task function followed by the save: it
    raises what [search_and_filter] raises, and otherwise returns the same
    entries after writing them to results.json and printing the count;
    [search_and_filter] itself writes no file. *)
Theorem run_pipeline_is_task_then_save topic ctx w :
  run_pipeline topic w =
  match search_and_filter topic ctx w with
  | (Ok results, w3) =>
      (Ok results,
       World (ext w3)
             (<["results.json" := JsonDocument topic (Entries results)]> (files w3))
             (stdout w3 ++ [saved_line (length results)]))
  | (Raise e, w3) => (Raise e, w3)
  end
  ∧ files (snd (search_and_filter topic ctx w)) = files w.
Proof.
  rewrite run_pipeline_eq, search_and_filter_eq.
  pose proof (generate_keywords_frame topic 3 w) as [F1 _].
  destruct (generate_keywords topic 3 w) as [[v | e] w1]; simpl in F1; [| easy].
  pose proof (search_authors_frame v 7 10 w1) as F2.
  destruct (search_authors v 7 10 w1) as [[authors | e] w2]; simpl in F2;
    [| split; [reflexivity | simpl; congruence]].
  pose proof (measurements_files (PyDict.items authors) w2) as [F3 _].
  destruct (measurements (PyDict.items authors) w2) as [ms w3]. simpl in *.
  split; [reflexivity | congruence].
Qed.

(** X8: a search that answers without included users (no expansions, an
    empty one, none of kind users, or an empty list of users) leaves the
    candidate map as it is and prints no warning. *)
Theorem search_keyword_without_users start_time per_kw authors kw w resp σ :
  search_recent_tweets (search_query kw) (Z.min per_kw 100) start_time
    ["author_id"] ["username"; "public_metrics"] (ext w) = (Ok resp, σ) →
  (∀ inc us, includes resp = Some inc → inc !! "users" = Some us → us = []) →
  search_keyword start_time per_kw authors kw w = (Ok authors, set_ext σ w).
Proof.
  intros E Hn. rewrite search_keyword_eq, E.
  unfold contribution, keyword_warning, included_users, set_ext.
  destruct (includes resp) as [inc |] eqn:Hi; [| simpl; now rewrite app_nil_r].
  destruct (inc !! "users") as [us |] eqn:Hu; [| simpl; now rewrite app_nil_r].
  rewrite (Hn inc us eq_refl Hu). simpl. now rewrite app_nil_r.
Qed.

(** X9: when the collector comes back with no candidate, the run asks for
    no timeline and still saves: it returns the empty list, results.json
    holds the document with no result, and the line printed says 0. *)
Theorem run_pipeline_without_candidates topic w v w1 w2 :
  generate_keywords topic 3 w = (Ok v, w1) →
  search_authors v 7 10 w1 = (Ok PyDict.empty, w2) →
  run_pipeline topic w =
  (Ok [],
   World (ext w2)
         (<["results.json" := JsonDocument topic (Entries [])]> (files w2))
         (stdout w2 ++ [saved_line 0])).
Proof. intros Hg Hs. now rewrite run_pipeline_eq, Hg, Hs. Qed.

End RunProperties.

Section OrchestrationProperties.
Context {Σ : Type} {C : Clients Σ}.
Implicit Types (w : world Σ) (σ : Σ).

(** X10: when the run of the crew returns an output that has [raw],
    [run_crewai] takes [raw], whatever [to_dict] and [json] are, and writes
    the topic and [raw] to results_crewai.json, without running the direct
    pipeline or writing results.json.  Then it takes the length of [raw]:
    when [raw] has one (a text, a list, a dict) it prints the finish line
    with it and returns [raw]; when [raw] has none ([None], a number) it
    raises the [TypeError] of [len], the file already written. *)
Theorem run_crewai_returns_raw topic w a σ1 t1 σ2 crew σ3 out w4 v :
  CREWAI_AVAILABLE = true →
  Agent agent_args (ext w) = (Ok a, σ1) →
  Task (task_args topic a) σ1 = (Ok t1, σ2) →
  Crew (crew_args a t1) σ2 = (Ok crew, σ3) →
  kickoff crew (set_ext σ3 w) = (Ok out, w4) →
  raw out = Some v →
  run_crewai topic w =
  match py_len v with
  | Ok n =>
      (Ok (Value v),
       World (ext w4)
             (<["results_crewai.json" := JsonDocument topic (Value v)]> (files w4))
             (stdout w4 ++ [finished_line n]))
  | Raise e =>
      (Raise e,
       World (ext w4)
             (<["results_crewai.json" := JsonDocument topic (Value v)]> (files w4))
             (stdout w4))
  end.
Proof.
  intros Ha HA HT HC HK Hr.
  unfold run_crewai. rewrite Ha. simpl.
  unfold bind at 1. unfold call at 1. rewrite HA.
  unfold bind at 1. unfold call at 1. simpl. rewrite HT.
  unfold bind at 1. unfold call at 1. simpl. rewrite HC.
  unfold bind at 1. unfold try_except. simpl.
  change (set_ext σ3 (set_ext σ2 (set_ext σ1 w))) with (set_ext σ3 w).
  unfold bind at 1. rewrite HK. unfold extract. rewrite Hr.
  cbv [ret bind json_dump write_file lift_result payload_len print].
  now destruct (py_len v).
Qed.

(** X11: the constructors of the orchestration library stand before the
    [try]: when [Agent], [Task] or [Crew] raises, [run_crewai] raises the
    same exception; there is no fallback to the direct pipeline, nothing is
    printed and no file is written. *)
Theorem run_crewai_setup_error topic w e :
  CREWAI_AVAILABLE = true →
  (∀ σ, Agent agent_args (ext w) = (Raise e, σ) →
        run_crewai topic w = (Raise e, set_ext σ w))
  ∧ (∀ a σ1 σ, Agent agent_args (ext w) = (Ok a, σ1) →
        Task (task_args topic a) σ1 = (Raise e, σ) →
        run_crewai topic w = (Raise e, set_ext σ w))
  ∧ (∀ a σ1 t1 σ2 σ, Agent agent_args (ext w) = (Ok a, σ1) →
        Task (task_args topic a) σ1 = (Ok t1, σ2) →
        Crew (crew_args a t1) σ2 = (Raise e, σ) →
        run_crewai topic w = (Raise e, set_ext σ w)).
Proof.
  intros Ha. unfold run_crewai. rewrite Ha. simpl. split; [| split].
  - intros σ HA. unfold bind at 1. unfold call at 1. now rewrite HA.
  - intros a σ1 σ HA HT.
    unfold bind at 1. unfold call at 1. rewrite HA.
    unfold bind at 1. unfold call at 1. simpl. now rewrite HT.
  - intros a σ1 t1 σ2 σ HA HT HC.
    unfold bind at 1. unfold call at 1. rewrite HA.
    unfold bind at 1. unfold call at 1. simpl. rewrite HT.
    unfold bind at 1. unfold call at 1. simpl. now rewrite HC.
Qed.

(** X12: the test of [main] changes nothing: with or without the
    orchestration library, [main] does what [run_crewai] does on the topic
    "US financial markets"; it raises when [run_crewai] raises and leaves
    the world [run_crewai] leaves. *)
Theorem main_is_run_crewai w :
  main w =
  match run_crewai "US financial markets" w with
  | (Ok _, w') => (Ok tt, w')
  | (Raise e, w') => (Raise e, w')
  end.
Proof.
  unfold main. destruct CREWAI_AVAILABLE eqn:Ha.
  - unfold bind, ret. now destruct (run_crewai _ w) as [[p | e] w'].
  - unfold run_crewai. rewrite Ha. simpl. unfold bind, ret.
    now destruct (run_pipeline _ w) as [[results | e] w'].
Qed.

End OrchestrationProperties.

(** ** Further runs on scripted clients *)
Section FurtherScenarios.
Import Scripted.

Lemma run_pipeline_keywords_not_iterable_witness :
  run_pipeline (C := clients chat_number) topic w0
  = (Raise (TypeError "'int' object is not iterable"), World 1%nat ∅ []).
Proof.
  edestruct (run_pipeline_keywords_not_iterable (C := clients chat_number) topic w0)
    as [E _].
  - vm_compute. reflexivity.
  - vm_compute. reflexivity.
  - exact E.
Defined.

Lemma run_pipeline_prints_witness :
  ∃ results w',
    run_pipeline (C := clients stale) topic w0 = (Ok results, w')
    ∧ stdout w' = ["warn: 'NoneType' object has no attribute 'get'";
                   "saved 1 users to results.json"].
Proof.
  assert (H : run_pipeline (C := clients stale) topic w0
              = (Ok [entry "A" 8000 10 5],
                 World 4%nat
                   {[ "results.json" := JsonDocument topic (Entries [entry "A" 8000 10 5]) ]}
                   ["warn: 'NoneType' object has no attribute 'get'";
                    "saved 1 users to results.json"]))
    by (vm_compute; reflexivity).
  eexists _, _. split; [exact H |].
  pose proof (run_pipeline_prints (C := clients stale) topic w0
                (PList [PStr "stocks"; PStr "Fed"]) (World 1%nat ∅ [])
                [PStr "stocks"; PStr "Fed"] _ _ eq_refl eq_refl H) as P.
  vm_compute in P. vm_compute. exact P.
Defined.

Lemma results_follow_map_order_witness :
  ∃ results w',
    run_pipeline (C := clients thresholds) topic w0 = (Ok results, w')
    ∧ sublist (map username results) ["E"; "F"; "G"; "H"; "I"]
    ∧ (length results ≤ 5)%nat.
Proof.
  edestruct (results_follow_map_order (C := clients thresholds) topic w0)
    as (results & w' & E & S & L).
  - vm_compute. reflexivity.
  - vm_compute. reflexivity.
  - exists results, w'. split; [exact E |]. split; [exact S | exact L].
Defined.

Lemma entries_well_formed_witness :
  profile_url (entry "E" 5000 6 3) = "https://x.com/" ++ username (entry "E" 5000 6 3)
  ∧ 5000 ≤ followers (entry "E" 5000 6 3)
  ∧ 6 ≤ tweets_last_2_weeks (entry "E" 5000 6 3).
Proof.
  eapply (entries_well_formed (C := clients thresholds) topic w0
            [entry "E" 5000 6 3; entry "I" 7000 7 (7 # 2)]).
  - vm_compute. reflexivity.
  - left. reflexivity.
Defined.

Lemma authors_measured_once_witness :
  ∃ results w',
    run_pipeline (C := logged (clients market)) topic (World (0%nat, []) ∅ [])
    = (Ok results, w')
    ∧ snd (ext w') = ["1"; "2"].
Proof.
  assert (H : run_pipeline (C := logged (clients market)) topic (World (0%nat, []) ∅ [])
              = (Ok [entry "A" 8000 10 5],
                 World (6%nat, ["1"; "2"])
                   {[ "results.json" := JsonDocument topic (Entries [entry "A" 8000 10 5]) ]}
                   ["warn: no answer"; "saved 1 users to results.json"]))
    by (vm_compute; reflexivity).
  eexists _, _. split; [exact H |].
  destruct (authors_measured_once (C := clients market) topic _ _ _ H)
    as (v & w1 & authors & w2 & Hg & Hs & L & _).
  vm_compute in Hg. injection Hg as <- <-.
  vm_compute in Hs. injection Hs as <- _.
  exact L.
Defined.

Lemma search_keyword_without_users_witness :
  search_keyword (C := clients no_expansion) "0" 10
    [("1", {| info_username := "A"; info_followers := 8000 |})] (PStr "markets") w0
  = (Ok [("1", {| info_username := "A"; info_followers := 8000 |})], World 1%nat ∅ []).
Proof.
  eapply (search_keyword_without_users (C := clients no_expansion) "0" 10 _
            (PStr "markets") w0).
  - vm_compute. reflexivity.
  - intros inc us Hi. vm_compute in Hi. discriminate.
Defined.

Lemma run_pipeline_without_candidates_witness :
  run_pipeline (C := clients chat_prose) topic w0
  = (Ok [],
     World 4%nat {[ "results.json" := JsonDocument topic (Entries []) ]}
       ["warn: no answer"; "warn: no answer"; "warn: no answer";
        "saved 0 users to results.json"]).
Proof.
  eapply eq_trans.
  - eapply (run_pipeline_without_candidates (C := clients chat_prose) topic w0).
    + vm_compute. reflexivity.
    + vm_compute. reflexivity.
  - vm_compute. reflexivity.
Defined.

Lemma run_crewai_returns_raw_witness :
  run_crewai (C := clients crew_answers) topic w0
  = (Ok (Value (PStr "A")),
     World 4%nat {[ "results_crewai.json" := JsonDocument topic (Value (PStr "A")) ]}
       ["CrewAI flow finished, saved 1 users to results_crewai.json"]).
Proof.
  eapply eq_trans.
  - eapply (run_crewai_returns_raw (C := clients crew_answers) topic w0);
      vm_compute; reflexivity.
  - vm_compute. reflexivity.
Defined.

(** A text counts by its code points, and a [raw] of [None] has no
    length. *)
Example len_counts_code_points :
  py_len (PStr ("na" ++ String "195"%char (String "175"%char "ve"))) = Ok 5
  ∧ is_ok (py_len PNone) = false.
Proof. split; reflexivity. Qed.

Lemma run_crewai_setup_error_witness :
  run_crewai (C := clients_rejecting 0 market) topic w0 = (Raise invalid, World 1%nat ∅ [])
  ∧ run_crewai (C := clients_rejecting 1 market) topic w0 = (Raise invalid, World 2%nat ∅ [])
  ∧ run_crewai (C := clients_rejecting 2 market) topic w0 = (Raise invalid, World 3%nat ∅ []).
Proof.
  split; [| split].
  - destruct (run_crewai_setup_error (C := clients_rejecting 0 market) topic w0 invalid
                eq_refl) as (H & _ & _).
    exact (H 1%nat eq_refl).
  - destruct (run_crewai_setup_error (C := clients_rejecting 1 market) topic w0 invalid
                eq_refl) as (_ & H & _).
    exact (H _ 1%nat 2%nat eq_refl eq_refl).
  - destruct (run_crewai_setup_error (C := clients_rejecting 2 market) topic w0 invalid
                eq_refl) as (_ & _ & H).
    exact (H _ 1%nat _ 2%nat 3%nat eq_refl eq_refl eq_refl).
Defined.

End FurtherScenarios.
